(** * Botpress security helper ([src/security/index.js])

    A shallow embedding of the token life cycle of the security helper:
    [login], [buildToken], [authenticateWithError], [authenticate],
    [getUserIdentity], [refreshToken] and [getAuthenticationInfo].

    The helper is an asynchronous JavaScript closure.  Its collaborators
    (the [authentication] module, the [cloud] object and the [jsonwebtoken]
    library) are not part of the file; every call to one of them is an
    [Event] of a small free monad [Prog], answered by an arbitrary
    environment ([handler]).  Thrown values, [try]/[catch] and the
    short-circuit operators of JavaScript are written out. *)

From Stdlib Require Import List String Ascii Bool ZArith Lia DecimalString.
Import ListNotations.
Open Scope string_scope.
Set Warnings "-register-all".

(** ** JavaScript values *)

Module JS.

(** The values the helper handles.  The helper never computes with a
    number: it only tests it ([ToBoolean]), prints it in a template
    literal ([ToString]) and passes it on.  A number is therefore given by
    its [ToString] rendering, the text a template literal prints for it:
    ["0"], ["42"], ["-1.5"], ["1e+21"], ["NaN"], ["Infinity"].  Objects are
    association lists of own properties. *)
Inductive value : Type :=
| VUndefined
| VNull
| VBool (b : bool)
| VNum (text : string)
| VStr (s : string)
| VObj (fields : list (string * value)).

(** [ToBoolean]: what [if (v)], [!v], [a && b] and [a || b] test.  The
    falsy numbers are [+0] and [-0], which both print as ["0"], and
    [NaN]. *)
Definition truthy (v : value) : bool :=
  match v with
  | VUndefined | VNull => false
  | VBool b => b
  | VNum text => negb (String.eqb text "0" || String.eqb text "NaN")
  | VStr s => negb (String.eqb s "")
  | VObj _ => true
  end.

(** [ToString], as a template literal applies it. *)
Definition to_string (v : value) : string :=
  match v with
  | VUndefined => "undefined"
  | VNull => "null"
  | VBool true => "true"
  | VBool false => "false"
  | VNum text => text
  | VStr s => s
  | VObj _ => "[object Object]"
  end.

(** [v !== s] where the right operand is a string. *)
Definition strict_neq_string (v : value) (s : string) : bool :=
  match v with
  | VStr s' => negb (String.eqb s' s)
  | _ => true
  end.

(** [a && b] and [a || b] on already evaluated operands. *)
Definition js_and (a b : value) : value := if truthy a then b else a.
Definition js_or (a b : value) : value := if truthy a then a else b.

Definition nullish (v : value) : bool :=
  match v with
  | VUndefined | VNull => true
  | _ => false
  end.

Fixpoint assoc (k : string) (fields : list (string * value)) : value :=
  match fields with
  | [] => VUndefined
  | (k', v) :: rest => if String.eqb k' k then v else assoc k rest
  end.

(** [v.k] for a [v] that is neither [undefined] nor [null]: an own property
    of an object, [undefined] on a primitive. *)
Definition prop (v : value) (k : string) : value :=
  match v with
  | VObj fields => assoc k fields
  | _ => VUndefined
  end.

(** [new Error(msg)] *)
Definition mkError (msg : string) : value := VObj [("message", VStr msg)].

Definition TypeError (msg : string) : value :=
  VObj [("name", VStr "TypeError"); ("message", VStr msg)].

(** [s.split(sep)] for a one-character separator: every occurrence of the
    separator cuts, and the result is never empty. *)
Fixpoint split (sep : ascii) (s : string) : list string :=
  match s with
  | EmptyString => [EmptyString]
  | String c rest =>
      if Ascii.eqb c sep then EmptyString :: split sep rest
      else match split sep rest with
           | seg :: segs => String c seg :: segs
           | [] => [String c EmptyString]
           end
  end.

(** How often a character occurs in a string. *)
Fixpoint count_char (c : ascii) (s : string) : nat :=
  match s with
  | EmptyString => 0
  | String c' rest => (if Ascii.eqb c' c then 1 else 0) + count_char c rest
  end.

(** Array destructuring [const [a, b] = arr]: a missing element is
    [undefined]. *)
Definition element (i : nat) (arr : list string) : value :=
  match nth_error arr i with
  | Some s => VStr s
  | None => VUndefined
  end.

End JS.
Import JS.

(** ** Programs over the collaborators *)

(** Options of [jwt.sign]. *)
Record SignOptions : Type := {
  issuer : string;
  expiresIn : value;
  algorithm : string
}.

(** One constructor per collaborator call of the source. *)
Inductive Event : Type :=
| GetSecret                                     (* authentication.getSecret() *)
| Attempt (ip : value)                          (* authentication.attempt(ip) *)
| CheckCredentials (user password ip : value)   (* authentication.authenticate(user, password, ip) *)
| VerifyUser (decoded : value)                  (* authentication.verifyUser(decoded) *)
| IsPaired                                      (* cloud.isPaired() *)
| GetPairingInfo                                (* cloud.getPairingInfo() *)
| GetCertificate                                (* cloud.getCertificate() *)
| GetBotEnv                                     (* cloud.getBotEnv() *)
| GetCloudEndpoint                              (* cloud.getCloudEndpoint() *)
| JwtSign (payload secret : value) (options : SignOptions)         (* jwt.sign *)
| JwtVerify (token secret : value) (algorithms : list string).     (* jwt.verify *)

(** How a call or a whole operation ends: with a value, or with a thrown
    value (a rejected promise). *)
Inductive result (A : Type) : Type :=
| Done (a : A)
| Thrown (err : value).
Arguments Done {A} a.
Arguments Thrown {A} err.

Inductive Prog (A : Type) : Type :=
| Ret (a : A)
| Throw (err : value)
| Call (ev : Event) (k : result value -> Prog A).
Arguments Ret {A} a.
Arguments Throw {A} err.
Arguments Call {A} ev k.

Fixpoint bind {A B : Type} (p : Prog A) (f : A -> Prog B) : Prog B :=
  match p with
  | Ret a => f a
  | Throw err => Throw err
  | Call ev k => Call ev (fun r => bind (k r) f)
  end.

(** [try { p } catch (err) { h err }] *)
Fixpoint try_catch {A : Type} (p : Prog A) (h : value -> Prog A) : Prog A :=
  match p with
  | Ret a => Ret a
  | Throw err => h err
  | Call ev k => Call ev (fun r => try_catch (k r) h)
  end.

Definition lift {A : Type} (r : result A) : Prog A :=
  match r with
  | Done a => Ret a
  | Thrown err => Throw err
  end.

(** [await collaborator(...)]: the answer, or the collaborator's throw. *)
Definition call (ev : Event) : Prog value := Call ev lift.

(** [v.k], which throws on [undefined] and [null]. *)
Definition get_prop (v : value) (k : string) : Prog value :=
  if nullish v
  then Throw (TypeError ("Cannot read property '" ++ k ++ "' of " ++ to_string v))
  else Ret (prop v k).

Declare Scope prog_scope.
Delimit Scope prog_scope with prog.
Notation "x <- p ;; q" := (bind p (fun x => q))
  (at level 61, p at next level, right associativity) : prog_scope.
Notation "' pat <- p ;; q" := (bind p (fun x => match x with pat => q end))
  (at level 61, pat pattern, p at next level, right associativity) : prog_scope.
Open Scope prog_scope.

(** ** Running a program against an environment *)

(** An environment with state [W] answers each call and moves on. *)
Definition handler (W : Type) : Type := Event -> W -> result value * W.

(** The outcome, the final environment state, and the calls made in order. *)
Fixpoint run {W A : Type} (h : handler W) (p : Prog A) (w : W)
  : result A * W * list Event :=
  match p with
  | Ret a => (Done a, w, [])
  | Throw err => (Thrown err, w, [])
  | Call ev k =>
      let '(r, w1) := h ev w in
      let '(out, w2, calls) := run h (k r) w1 in
      (out, w2, ev :: calls)
  end.

Definition outcome {W A : Type} (x : result A * W * list Event) : result A :=
  fst (fst x).
Definition final {W A : Type} (x : result A * W * list Event) : W :=
  snd (fst x).
Definition calls {W A : Type} (x : result A * W * list Event) : list Event :=
  snd x.

(** ** The helper *)

(** [securityConfig], as the constructor destructures it. *)
Record SecurityConfig : Type := {
  cfg_tokenExpiry : value;
  cfg_enabled : value;
  cfg_useCloud : value
}.

(** What the closure captures at construction (lines 20-24); nothing
    assigns to these afterwards. *)
Record Env : Type := {
  tokenExpiry : value;
  loginEnabled : value;
  useCloud : value;
  isCloudPaired : value;
  botId : value;
  hasVerifyUser : bool     (* whether [authentication.verifyUser] is defined *)
}.

(** Lines 22-24:
    [isCloudPaired = useCloud && (await cloud.isPaired())] and
    [{ botId } = (isCloudPaired && cloud.getPairingInfo()) || {}]. *)
Definition construct (securityConfig : SecurityConfig) (verifyUserDefined : bool)
  : Prog Env :=
  paired <- (if truthy (cfg_useCloud securityConfig) then call IsPaired
             else Ret (cfg_useCloud securityConfig)) ;;
  info <- (if truthy paired then call GetPairingInfo else Ret paired) ;;
  Ret {| tokenExpiry := cfg_tokenExpiry securityConfig;
         loginEnabled := cfg_enabled securityConfig;
         useCloud := cfg_useCloud securityConfig;
         isCloudPaired := paired;
         botId := prop (js_or info (VObj [])) "botId";
         hasVerifyUser := verifyUserDefined |}.

(** [{ success: true, token }] or [{ success: false, reason }]. *)
Inductive AuthResult : Type :=
| Success (token : value)
| Failure (reason : value).

(** The object of [getAuthenticationInfo]. *)
Record AuthInfo : Type := {
  info_isCloudPaired : value;
  info_botId : value;
  info_loginEnabled : value;
  info_useCloud : value;
  info_botEnv : value;
  info_cloudEndpoint : value
}.

Definition ROOT_DISABLED : string :=
  "Root authentication is disabled when using Botpress Cloud [BPCLOUDERR]".
Definition TOO_MANY_ATTEMPTS : string :=
  "Too many login attempts. Try again later.".
Definition BAD_CREDENTIALS : string := "Bad username / password".
Definition TOKEN_INVALID : string := "The token is invalid or expired".

(** [`Wrong scheme ${scheme}, expected Bearer`] *)
Definition wrong_scheme (scheme : value) : string :=
  "Wrong scheme " ++ to_string scheme ++ ", expected Bearer".

(** [`urn:bot/${botId}`] *)
Definition bot_urn (id : value) : string := "urn:bot/" ++ to_string id.

(** [const [scheme, token] = authHeader.split(' ')] *)
Definition header_parts (authHeader : string) : value * value :=
  let parts := split " "%char authHeader in
  (element 0 parts, element 1 parts).

(** [authHeader.split(' ')] throws a TypeError when [authHeader] is not a
    string: [undefined] and [null] have no properties, and no other value
    has a [split] method. *)
Definition split_type_error (authHeader : value) : value :=
  if nullish authHeader
  then TypeError ("Cannot read property 'split' of " ++ to_string authHeader)
  else TypeError "authHeader.split is not a function".

Definition split_header (authHeader : value) : Prog (value * value) :=
  match authHeader with
  | VStr s => Ret (header_parts s)
  | _ => Throw (split_type_error authHeader)
  end.

(** The default parameter [ip = 'all']. *)
Definition default_ip (ip : value) : value :=
  match ip with
  | VUndefined => VStr "all"
  | _ => ip
  end.

Section Helper.

Variable env : Env.

(** Lines 26-29. *)
Definition buildToken (loginUser : value) : Prog value :=
  secret <- call GetSecret ;;
  call (JwtSign (VObj [("user", loginUser)]) secret
          {| issuer := "bot.root";
             expiresIn := tokenExpiry env;
             algorithm := "HS256" |}).

(** Lines 33-56; [ip] defaults to ['all'] when it is [undefined]. *)
Definition login (user password ip : value) : Prog AuthResult :=
  let ip := default_ip ip in
  if truthy (isCloudPaired env) then
    Ret (Failure (VStr ROOT_DISABLED))
  else
    canAttempt <- call (Attempt ip) ;;
    if negb (truthy canAttempt) then
      Ret (Failure (VStr TOO_MANY_ATTEMPTS))
    else
      loginUser <- call (CheckCredentials user password ip) ;;
      if truthy loginUser then
        token <- buildToken loginUser ;;
        Ret (Success token)
      else
        Ret (Failure (VStr BAD_CREDENTIALS)).

(** Lines 58-65. *)
Definition getAuthenticationInfo : Prog AuthInfo :=
  botEnv <- call GetBotEnv ;;
  endpoint <- (if truthy (isCloudPaired env) then call GetCloudEndpoint
               else Ret (isCloudPaired env)) ;;
  Ret {| info_isCloudPaired := isCloudPaired env;
         info_botId := botId env;
         info_loginEnabled := loginEnabled env;
         info_useCloud := useCloud env;
         info_botEnv := botEnv;
         info_cloudEndpoint := endpoint |}.

(** Lines 75-84 and 117-126: the key and the one algorithm of the mode. *)
Definition mode_algorithm : string :=
  if truthy (isCloudPaired env) then "RS256" else "HS256".

Definition material_event : Event :=
  if truthy (isCloudPaired env) then GetCertificate else GetSecret.

Definition verification_material : Prog (value * string) :=
  if truthy (isCloudPaired env) then
    secret <- call GetCertificate ;; Ret (secret, "RS256")
  else
    secret <- call GetSecret ;; Ret (secret, "HS256").

(** Lines 87 and 129:
    [authentication.verifyUser ? await authentication.verifyUser(decoded) : true] *)
Definition verify_user (decoded : value) : Prog value :=
  if hasVerifyUser env then call (VerifyUser decoded) else Ret (VBool true).

(** [verified && decoded.user]: [decoded.user] is read only when
    [verified] is truthy. *)
Definition verified_and_user (verified decoded : value) : Prog value :=
  if truthy verified then get_prop decoded "user" else Ret verified.

(** Lines 67-101.  The first statement, the split, is outside the [try]. *)
Definition authenticateWithError (authHeader : value) : Prog value :=
  '(scheme, token) <- split_header authHeader ;;
  if strict_neq_string scheme "Bearer" then
    Throw (mkError (wrong_scheme scheme))
  else
    try_catch
      ('(secret, algorithm) <- verification_material ;;
       decoded <- call (JwtVerify token secret [algorithm]) ;;
       verified <- verify_user decoded ;;
       proofOnly <- get_prop decoded "identity_proof_only" ;;
       if truthy proofOnly then Ret (VBool false)
       else
         aud <- get_prop decoded "aud" ;;
         if strict_neq_string aud (bot_urn (botId env)) then Ret (VBool false)
         else verified_and_user verified decoded)
      (fun _ => Throw (mkError TOKEN_INVALID)).

(** Lines 107-114. *)
Definition authenticate (authHeader : value) : Prog value :=
  try_catch (user <- authenticateWithError authHeader ;; Ret user)
            (fun _ => Ret (VBool false)).

(** Lines 116-136. *)
Definition getUserIdentity (token : value) : Prog value :=
  '(secret, algorithm) <- verification_material ;;
  decoded <- call (JwtVerify token secret [algorithm]) ;;
  verified <- verify_user decoded ;;
  aud <- get_prop decoded "aud" ;;
  if strict_neq_string aud (bot_urn (botId env)) then Ret (VBool false)
  else verified_and_user verified decoded.

(** [err.message || 'The token is invalid or expired'] *)
Definition failure_reason (err : value) : Prog value :=
  message <- get_prop err "message" ;;
  Ret (js_or message (VStr TOKEN_INVALID)).

(** Lines 138-167. *)
Definition refreshToken (authHeader : value) : Prog AuthResult :=
  if negb (truthy (loginEnabled env)) then
    '(scheme, token) <- split_header authHeader ;;
    if strict_neq_string scheme "Bearer" then
      Ret (Failure (VStr (wrong_scheme scheme)))
    else
      Ret (Success token)
  else
    try_catch
      (loginUser <- authenticateWithError authHeader ;;
       token <- buildToken loginUser ;;
       Ret (Success token))
      (fun err => reason <- failure_reason err ;; Ret (Failure reason)).

End Helper.

(** ** A reference environment *)

Module Reference.

(** Modelled from the spec: the [jsonwebtoken] primitive, idealised.  A
    token is a string without spaces that starts with the algorithm of its
    header, up to the first dot; the library knows, for each token ever
    signed, the key that signed it and its claims. *)
Record Minted : Type := {
  m_token : string;
  m_key : string;
  m_claims : list (string * value);
  m_expires : Z
}.

(** Modelled from the spec: the state behind the Authentication and Cloud
    collaborators of section 6 ([+/authentication] and [cloud] are not in
    this file): the secret, one root account, a budget of login attempts,
    the answer of the optional [verifyUser] hook, the pairing, and the
    clock the token library reads. *)
Record World : Type := {
  now : Z;
  secretKey : string;
  certificate : string;
  rootUser : string;
  rootPassword : string;
  attemptsLeft : nat;
  hookAnswer : value;
  cloudPaired : bool;
  pairedBot : string;
  minted : list Minted
}.

Definition spend_attempt (w : World) : World :=
  {| now := now w; secretKey := secretKey w; certificate := certificate w;
     rootUser := rootUser w; rootPassword := rootPassword w;
     attemptsLeft := pred (attemptsLeft w); hookAnswer := hookAnswer w;
     cloudPaired := cloudPaired w; pairedBot := pairedBot w;
     minted := minted w |}.

Definition remember (m : Minted) (w : World) : World :=
  {| now := now w; secretKey := secretKey w; certificate := certificate w;
     rootUser := rootUser w; rootPassword := rootPassword w;
     attemptsLeft := attemptsLeft w; hookAnswer := hookAnswer w;
     cloudPaired := cloudPaired w; pairedBot := pairedBot w;
     minted := (minted w ++ [m])%list |}.

Fixpoint find_token (t : string) (ms : list Minted) : option Minted :=
  match ms with
  | [] => None
  | m :: rest => if String.eqb (m_token m) t then Some m else find_token t rest
  end.

Definition is_string (v : value) (s : string) : bool :=
  negb (strict_neq_string v s).

(** The algorithm a token states in its header. *)
Definition stated_algorithm (token : value) : option string :=
  match token with
  | VStr t => Some (hd "" (split "." t))
  | _ => None
  end.

(** The number [z], for a [z] small enough to print in plain digits. *)
Definition num (z : Z) : value := VNum (NilZero.string_of_int (Z.to_int z)).

Definition prints_in_digits (z : Z) : bool := (Z.abs z <? 10 ^ 21)%Z.

(** A lifetime given as a whole number of seconds. *)
Definition seconds_of (lifetime : value) : option Z :=
  match lifetime with
  | VNum text => option_map Z.of_int (NilZero.int_of_string text)
  | _ => None
  end.

(** Modelled from the spec: [jwt.sign(payload, secret, options)] adds
    [iat], [exp] and [iss] to the payload and signs with the given key and
    algorithm.  This library takes the lifetime as a whole number of
    seconds only and refuses every other one (the real one also reads
    time spans such as '6 hours'), and it refuses times beyond the range
    that prints in plain digits. *)
Definition jwt_sign (payload secret : value) (options : SignOptions) (w : World)
  : result value * World :=
  match payload, secret, seconds_of (expiresIn options) with
  | VObj fields, VStr key, Some seconds =>
      if prints_in_digits (now w) && prints_in_digits (now w + seconds) then
        let name := algorithm options ++ ".jwt"
                    ++ NilZero.string_of_uint (Nat.to_uint (List.length (minted w))) in
        let claims := (fields ++ [("iat", num (now w));
                                  ("exp", num (now w + seconds));
                                  ("iss", VStr (issuer options))])%list in
        (Done (VStr name),
         remember {| m_token := name; m_key := key; m_claims := claims;
                     m_expires := now w + seconds |} w)
      else (Thrown (mkError "invalid sign arguments"), w)
  | _, _, _ => (Thrown (mkError "invalid sign arguments"), w)
  end.

(** Modelled from the spec: [jwt.verify(token, secret, { algorithms })]
    throws unless the header algorithm of the token is one of
    [algorithms], the token was signed with the given key and it has not
    expired; it then returns the claims. *)
Definition jwt_verify (token secret : value) (algorithms : list string) (w : World)
  : result value :=
  match stated_algorithm token with
  | None => Thrown (mkError "jwt must be provided")
  | Some alg =>
      if negb (existsb (String.eqb alg) algorithms)
      then Thrown (mkError "invalid algorithm")
      else match find_token (to_string token) (minted w) with
           | None => Thrown (mkError "invalid signature")
           | Some m =>
               if negb (is_string secret (m_key m))
               then Thrown (mkError "invalid signature")
               else if (m_expires m <=? now w)%Z
               then Thrown (mkError "jwt expired")
               else Done (VObj (m_claims m))
           end
  end.

Definition answer : handler World := fun ev w =>
  match ev with
  | GetSecret => (Done (VStr (secretKey w)), w)
  | Attempt _ =>
      match attemptsLeft w with
      | O => (Done (VBool false), w)
      | S _ => (Done (VBool true), spend_attempt w)
      end
  | CheckCredentials user password _ =>
      if is_string user (rootUser w) && is_string password (rootPassword w)
      then (Done (VStr (rootUser w)), w)
      else (Done VNull, w)
  | VerifyUser _ => (Done (hookAnswer w), w)
  | IsPaired => (Done (VBool (cloudPaired w)), w)
  | GetPairingInfo => (Done (VObj [("botId", VStr (pairedBot w))]), w)
  | GetCertificate => (Done (VStr (certificate w)), w)
  | GetBotEnv => (Done (VStr "dev"), w)
  | GetCloudEndpoint => (Done (VStr "https://botpress.cloud"), w)
  | JwtSign payload secret options => jwt_sign payload secret options w
  | JwtVerify token secret algorithms => (jwt_verify token secret algorithms w, w)
  end.

(** The example of section 8: unpaired, no bot identifier, login enabled,
    secret ["s3cr3t"], root account [("admin", "pw")]. *)
Definition local_world : World :=
  {| now := 1000; secretKey := "s3cr3t"; certificate := "cert";
     rootUser := "admin"; rootPassword := "pw";
     attemptsLeft := 3; hookAnswer := VBool true;
     cloudPaired := false; pairedBot := "";
     minted := [] |}.

Definition local_config : SecurityConfig :=
  {| cfg_tokenExpiry := VNum "3600"; cfg_enabled := VBool true;
     cfg_useCloud := VBool false |}.

(** The helper as [construct] builds it in that world. *)
Definition local_env : Env :=
  {| tokenExpiry := VNum "3600"; loginEnabled := VBool true;
     useCloud := VBool false; isCloudPaired := VBool false;
     botId := VUndefined; hasVerifyUser := false |}.

(** A paired deployment bound to bot ["b1"].  The control plane has issued
    a session token, a proof-only token, a token for another bot and a
    token that has expired; somebody has signed an HS256 token with the
    certificate as the key. *)
Definition cloud_claims (extra : list (string * value)) : list (string * value) :=
  ([("user", VStr "alice"); ("aud", VStr "urn:bot/b1"); ("exp", VNum "5000")]
   ++ extra)%list.

Definition paired_world : World :=
  {| now := 1000; secretKey := "s3cr3t"; certificate := "cert";
     rootUser := "admin"; rootPassword := "pw";
     attemptsLeft := 3; hookAnswer := VBool true;
     cloudPaired := true; pairedBot := "b1";
     minted :=
       [ {| m_token := "RS256.session"; m_key := "cert";
            m_claims := cloud_claims []; m_expires := 5000 |};
         {| m_token := "RS256.proof"; m_key := "cert";
            m_claims := cloud_claims [("identity_proof_only", VBool true)];
            m_expires := 5000 |};
         {| m_token := "HS256.forged"; m_key := "cert";
            m_claims := cloud_claims []; m_expires := 5000 |};
         {| m_token := "RS256.other"; m_key := "cert";
            m_claims := [("user", VStr "alice"); ("aud", VStr "urn:bot/b2");
                         ("exp", VNum "5000")];
            m_expires := 5000 |};
         {| m_token := "RS256.stale"; m_key := "cert";
            m_claims := [("user", VStr "alice"); ("aud", VStr "urn:bot/b1");
                         ("exp", VNum "999")];
            m_expires := 999 |} ] |}.

Definition paired_config : SecurityConfig :=
  {| cfg_tokenExpiry := VNum "3600"; cfg_enabled := VBool true;
     cfg_useCloud := VBool true |}.

Definition paired_env : Env :=
  {| tokenExpiry := VNum "3600"; loginEnabled := VBool true;
     useCloud := VBool true; isCloudPaired := VBool true;
     botId := VStr "b1"; hasVerifyUser := true |}.

(** A deployment with login switched off. *)
Definition open_env : Env :=
  {| tokenExpiry := VNum "3600"; loginEnabled := VBool false;
     useCloud := VBool false; isCloudPaired := VBool false;
     botId := VUndefined; hasVerifyUser := false |}.

End Reference.

(** ** Vocabulary of the properties *)

(** [authenticate] maps a throw of [authenticateWithError] to [false]. *)
Definition collapse (r : result value) : result value :=
  match r with
  | Done v => Done v
  | Thrown _ => Done (VBool false)
  end.

(** The environment lets the attempt through and the credential check
    answers with a falsy value (no principal). *)
Definition credential_check_fails {W : Type} (h : handler W) (w : W)
  (user password ip : value) : Prop :=
  exists canAttempt w1 loginUser w2,
    h (Attempt ip) w = (Done canAttempt, w1) /\ truthy canAttempt = true /\
    h (CheckCredentials user password ip) w1 = (Done loginUser, w2) /\
    truthy loginUser = false.

(** The contract of [jwt.verify] on its [algorithms] option: a token
    whose header algorithm is not listed is refused. *)
Definition refuses_unlisted_algorithms {W : Type} (h : handler W)
  (alg_of : value -> option string) : Prop :=
  forall token secret algorithms w,
    (forall a, alg_of token = Some a -> ~ In a algorithms) ->
    exists err w1, h (JwtVerify token secret algorithms) w = (Thrown err, w1).

(** A [jwt.verify] call lists exactly the algorithm [alg]. *)
Definition verifies_only_with (alg : string) (ev : Event) : Prop :=
  match ev with
  | JwtVerify _ _ algorithms => algorithms = [alg]
  | _ => True
  end.

(** The options [buildToken] signs with. *)
Definition sign_options (env : Env) : SignOptions :=
  {| issuer := "bot.root"; expiresIn := tokenExpiry env; algorithm := "HS256" |}.

(** A failure inside the verification steps: the key fetch throws, or
    [jwt.verify] throws (bad signature, wrong algorithm, expiry), or the
    [verifyUser] hook throws. *)
Definition verification_throws {W : Type} (h : handler W) (env : Env)
  (token : value) (w : W) (err : value) : Prop :=
  (exists w1, h (material_event env) w = (Thrown err, w1)) \/
  (exists secret w1 w2,
      h (material_event env) w = (Done secret, w1) /\
      h (JwtVerify token secret [mode_algorithm env]) w1 = (Thrown err, w2)) \/
  (exists secret w1 decoded w2 w3,
      h (material_event env) w = (Done secret, w1) /\
      h (JwtVerify token secret [mode_algorithm env]) w1 = (Done decoded, w2) /\
      hasVerifyUser env = true /\
      h (VerifyUser decoded) w2 = (Thrown err, w3)).

(** If the token verifies in this run, its claims carry a truthy
    [identity_proof_only]. *)
Definition carries_proof_only {W : Type} (h : handler W) (env : Env)
  (token : value) (w : W) : Prop :=
  forall secret w1 decoded w2,
    h (material_event env) w = (Done secret, w1) ->
    h (JwtVerify token secret [mode_algorithm env]) w1 = (Done decoded, w2) ->
    truthy (prop decoded "identity_proof_only") = true.

(** What the optional [verifyUser] hook says about the claims: its own
    answer when the collaborator defines it, [true] without a call when it
    does not. *)
Definition hook_answers {W : Type} (h : handler W) (env : Env)
  (decoded : value) (w2 : W) (verified : value) (w3 : W) : Prop :=
  if hasVerifyUser env
  then h (VerifyUser decoded) w2 = (Done verified, w3)
  else verified = VBool true /\ w3 = w2.

(** The verification steps go through: the collaborator hands out the
    key, [jwt.verify] returns the decoded claims, the hook answers. *)
Definition verification_passes {W : Type} (h : handler W) (env : Env)
  (token : value) (w : W) (decoded verified : value) (w3 : W) : Prop :=
  exists secret w1 w2,
    h (material_event env) w = (Done secret, w1) /\
    h (JwtVerify token secret [mode_algorithm env]) w1 = (Done decoded, w2) /\
    hook_answers h env decoded w2 verified w3 /\
    nullish decoded = false.

(** [parts.join(sep)], the inverse of [split]. *)
Fixpoint join (sep : ascii) (parts : list string) : string :=
  match parts with
  | [] => EmptyString
  | part :: rest =>
      match rest with
      | [] => part
      | _ :: _ => part ++ String sep (join sep rest)
      end
  end.

(** The calls the verification steps may make: the key fetch of the mode,
    [jwt.verify], and the hook when it is defined. *)
Definition verification_call (env : Env) (ev : Event) : Prop :=
  match ev with
  | GetSecret => truthy (isCloudPaired env) = false
  | GetCertificate => truthy (isCloudPaired env) = true
  | JwtVerify _ _ _ => True
  | VerifyUser _ => hasVerifyUser env = true
  | _ => False
  end.

(** A [jwt.sign] call uses the helper's fixed options and a [{user}]
    payload. *)
Definition signs_as_root (env : Env) (ev : Event) : Prop :=
  match ev with
  | JwtSign payload _ options =>
      options = sign_options env /\ exists user, payload = VObj [("user", user)]
  | _ => True
  end.

(** The calls [getAuthenticationInfo] may make. *)
Definition info_call (ev : Event) : Prop :=
  match ev with
  | GetBotEnv | GetCloudEndpoint => True
  | _ => False
  end.

(** Whatever the environment throws is an object (never [undefined] or
    [null]). *)
Definition throws_objects {W : Type} (h : handler W) : Prop :=
  forall ev w err w1, h ev w = (Thrown err, w1) -> nullish err = false.

(** The throttle gate or the credential check throws. *)
Definition login_collaborator_throws {W : Type} (h : handler W) (w : W)
  (user password ip err : value) : Prop :=
  (exists w1, h (Attempt ip) w = (Thrown err, w1)) \/
  (exists canAttempt w1 w2,
      h (Attempt ip) w = (Done canAttempt, w1) /\ truthy canAttempt = true /\
      h (CheckCredentials user password ip) w1 = (Thrown err, w2)).

(** [buildToken] fails: the secret fetch throws, or [jwt.sign] does. *)
Definition signing_throws {W : Type} (h : handler W) (env : Env)
  (loginUser : value) (w : W) (err : value) : Prop :=
  (exists w1, h GetSecret w = (Thrown err, w1)) \/
  (exists secret w1 w2,
      h GetSecret w = (Done secret, w1) /\
      h (JwtSign (VObj [("user", loginUser)]) secret (sign_options env)) w1
        = (Thrown err, w2)).

(** No [jwt.sign] call. *)
Definition not_a_signature (ev : Event) : Prop :=
  match ev with
  | JwtSign _ _ _ => False
  | _ => True
  end.

(** ** Further environments *)

Module Faults.

Definition is_secret_fetch (ev : Event) : bool :=
  match ev with GetSecret => true | _ => false end.

Definition is_attempt (ev : Event) : bool :=
  match ev with Attempt _ => true | _ => false end.

(** The reference environment, except that the calls selected by [broken]
    throw [err]. *)
Definition failing (broken : Event -> bool) (err : value)
  : handler Reference.World := fun ev w =>
  if broken ev then (Thrown err, w) else Reference.answer ev w.

(** The paired reference world with a [verifyUser] hook that answers
    [false]. *)
Definition refusing_world : Reference.World :=
  {| Reference.now := 1000; Reference.secretKey := "s3cr3t";
     Reference.certificate := "cert";
     Reference.rootUser := "admin"; Reference.rootPassword := "pw";
     Reference.attemptsLeft := 3; Reference.hookAnswer := VBool false;
     Reference.cloudPaired := true; Reference.pairedBot := "b1";
     Reference.minted := Reference.minted Reference.paired_world |}.

(** The reference world after the attempt budget is used up. *)
Definition throttled_world : Reference.World :=
  Reference.spend_attempt
    (Reference.spend_attempt (Reference.spend_attempt Reference.local_world)).

(** The unpaired reference world in which somebody holding the secret has
    signed a token for the audience "urn:bot/undefined". *)
Definition stray_audience_world : Reference.World :=
  Reference.remember
    {| Reference.m_token := "HS256.stray"; Reference.m_key := "s3cr3t";
       Reference.m_claims := [("user", VStr "bob");
                              ("aud", VStr "urn:bot/undefined");
                              ("exp", VNum "5000")];
       Reference.m_expires := 5000 |}
    Reference.local_world.

End Faults.

(** * Properties *)

(** ** Splitting a header *)

Section SplitFacts.

Variable sep : ascii.

Lemma split_nonempty (s : string) : split sep s <> [].
Proof.
  destruct s as [|c rest]; cbn; [discriminate|].
  destruct (Ascii.eqb c sep); [discriminate|].
  destruct (split sep rest); discriminate.
Qed.

Lemma split_without_sep (s : string) :
  count_char sep s = 0%nat -> split sep s = [s].
Proof.
  induction s as [|c rest IH]; cbn; [reflexivity|].
  destruct (Ascii.eqb c sep); [discriminate|].
  intros Hrest. rewrite (IH Hrest). reflexivity.
Qed.

Lemma split_at_first_sep (a rest : string) :
  count_char sep a = 0%nat ->
  split sep (a ++ String sep rest) = a :: split sep rest.
Proof.
  induction a as [|c a IH]; cbn.
  - intros _. rewrite Ascii.eqb_refl. reflexivity.
  - destruct (Ascii.eqb c sep); [discriminate|].
    intros Ha. rewrite (IH Ha). reflexivity.
Qed.

Lemma cut_at_first_sep (s : string) :
  (1 <= count_char sep s)%nat ->
  exists a rest,
    s = a ++ String sep rest /\ count_char sep a = 0%nat /\
    count_char sep s = S (count_char sep rest).
Proof.
  induction s as [|c s IH]; cbn; [lia|].
  destruct (Ascii.eqb c sep) eqn:Hc.
  - intros _. apply Ascii.eqb_eq in Hc. subst c.
    exists EmptyString, s. repeat split; reflexivity.
  - intros Hs. destruct (IH Hs) as (a & rest & -> & Ha & Hn).
    exists (String c a), rest. cbn. rewrite Hc.
    repeat split; assumption.
Qed.

End SplitFacts.

Lemma header_parts_two (scheme token : string) :
  count_char " " scheme = 0%nat -> count_char " " token = 0%nat ->
  header_parts (scheme ++ " " ++ token) = (VStr scheme, VStr token).
Proof.
  intros Hs Ht. unfold header_parts.
  change (scheme ++ " " ++ token) with (scheme ++ String " " token).
  rewrite (split_at_first_sep _ _ _ Hs), (split_without_sep _ _ Ht).
  reflexivity.
Qed.

Lemma header_parts_three (scheme token rest : string) :
  count_char " " scheme = 0%nat -> count_char " " token = 0%nat ->
  header_parts (scheme ++ " " ++ token ++ " " ++ rest) = (VStr scheme, VStr token).
Proof.
  intros Hs Ht. unfold header_parts.
  change (scheme ++ " " ++ token ++ " " ++ rest)
    with (scheme ++ String " " (token ++ String " " rest)).
  rewrite (split_at_first_sep _ _ _ Hs), (split_at_first_sep _ _ _ Ht).
  reflexivity.
Qed.

Lemma header_scheme_is_string (authHeader : string) :
  exists scheme,
    nth_error (split " " authHeader) 0 = Some scheme /\
    fst (header_parts authHeader) = VStr scheme.
Proof.
  unfold header_parts, element.
  destruct (split " " authHeader) as [|scheme segs] eqn:Hsplit.
  - exfalso. exact (split_nonempty _ _ Hsplit).
  - exists scheme. split; reflexivity.
Qed.

Lemma strict_neq_string_false (v : value) (s : string) :
  strict_neq_string v s = false <-> v = VStr s.
Proof.
  destruct v; cbn; split; try discriminate.
  - intros H. apply negb_false_iff, String.eqb_eq in H. congruence.
  - intros [= ->]. rewrite String.eqb_refl. reflexivity.
Qed.

Lemma strict_neq_string_true (s s' : string) :
  s <> s' -> strict_neq_string (VStr s) s' = true.
Proof.
  intros H. cbn. apply negb_true_iff, String.eqb_neq. exact H.
Qed.

(** ** Running binds and handlers *)

Section RunFacts.

Context {W : Type} (h : handler W).

Lemma run_bind {A B : Type} (p : Prog A) (f : A -> Prog B) (w : W) :
  run h (bind p f) w =
  match run h p w with
  | (Done a, w1, c1) =>
      let '(out, w2, c2) := run h (f a) w1 in (out, w2, (c1 ++ c2)%list)
  | (Thrown err, w1, c1) => (Thrown err, w1, c1)
  end.
Proof.
  revert w. induction p as [a|err|ev k IH]; intros w; cbn.
  - destruct (run h (f a) w) as [[out w2] c2]. reflexivity.
  - reflexivity.
  - destruct (h ev w) as [r w1]. rewrite IH.
    destruct (run h (k r) w1) as [[[a|err] w2] c1]; [|reflexivity].
    destruct (run h (f a) w2) as [[out w3] c2]. reflexivity.
Qed.

Lemma run_try_catch {A : Type} (p : Prog A) (g : value -> Prog A) (w : W) :
  run h (try_catch p g) w =
  match run h p w with
  | (Done a, w1, c1) => (Done a, w1, c1)
  | (Thrown err, w1, c1) =>
      let '(out, w2, c2) := run h (g err) w1 in (out, w2, (c1 ++ c2)%list)
  end.
Proof.
  revert w. induction p as [a|err|ev k IH]; intros w; cbn.
  - reflexivity.
  - destruct (run h (g err) w) as [[out w2] c2]. reflexivity.
  - destruct (h ev w) as [r w1]. rewrite IH.
    destruct (run h (k r) w1) as [[[a|err] w2] c1]; [reflexivity|].
    destruct (run h (g err) w2) as [[out w3] c2]. reflexivity.
Qed.

Lemma run_call (ev : Event) (w : W) :
  run h (call ev) w = (fst (h ev w), snd (h ev w), [ev]).
Proof.
  cbn. destruct (h ev w) as [[v|err] w1]; reflexivity.
Qed.

End RunFacts.

(** ** Login *)

(** C6.  While the helper is paired, [login] answers every input with the
    failure "Root authentication is disabled when using Botpress Cloud
    [BPCLOUDERR]"; it is a plain return, so against any environment it
    calls no collaborator at all: neither the throttle gate [attempt] nor
    the credential check [authenticate]. *)
Theorem login_paired_root_disabled (env : Env) (user password ip : value)
  (W : Type) (h : handler W) (w : W) :
  truthy (isCloudPaired env) = true ->
  login env user password ip = Ret (Failure (VStr ROOT_DISABLED)) /\
  run h (login env user password ip) w = (Done (Failure (VStr ROOT_DISABLED)), w, []).
Proof.
  intros Hpaired. assert (Hlogin : login env user password ip
                                   = Ret (Failure (VStr ROOT_DISABLED))).
  { unfold login. rewrite Hpaired. reflexivity. }
  split; [exact Hlogin|]. rewrite Hlogin. reflexivity.
Qed.

Lemma login_paired_root_disabled_witness :
  login Reference.paired_env (VStr "admin") (VStr "pw") (VStr "1.2.3.4")
    = Ret (Failure (VStr ROOT_DISABLED)) /\
  run Reference.answer
      (login Reference.paired_env (VStr "admin") (VStr "pw") (VStr "1.2.3.4"))
      Reference.paired_world
    = (Done (Failure (VStr ROOT_DISABLED)), Reference.paired_world, []).
Proof.
  apply (login_paired_root_disabled Reference.paired_env). reflexivity.
Defined.

Lemma login_bad_credentials (env : Env) (W : Type) (h : handler W) (w : W)
  (user password ip : value) :
  truthy (isCloudPaired env) = false ->
  credential_check_fails h w user password (default_ip ip) ->
  outcome (run h (login env user password ip) w)
    = Done (Failure (VStr BAD_CREDENTIALS)).
Proof.
  intros Hunpaired (canAttempt & w1 & loginUser & w2 & Hatt & Hcan & Hcheck & Hbad).
  unfold login. rewrite Hunpaired. cbn. rewrite Hatt. cbn.
  rewrite Hcan. cbn. rewrite Hcheck. cbn. rewrite Hbad. reflexivity.
Qed.

(** C8.  Unpaired and not throttled, two logins that fail the credential
    check, whatever the user names, passwords, addresses and environments
    (so also one with a wrong user name and one with a wrong password),
    end with the same failure, whose reason is "Bad username / password". *)
Theorem login_failures_indistinguishable (env : Env)
  (W1 W2 : Type) (h1 : handler W1) (h2 : handler W2) (w1 : W1) (w2 : W2)
  (user1 password1 ip1 user2 password2 ip2 : value) :
  truthy (isCloudPaired env) = false ->
  credential_check_fails h1 w1 user1 password1 (default_ip ip1) ->
  credential_check_fails h2 w2 user2 password2 (default_ip ip2) ->
  outcome (run h1 (login env user1 password1 ip1) w1)
    = Done (Failure (VStr BAD_CREDENTIALS)) /\
  outcome (run h2 (login env user2 password2 ip2) w2)
    = outcome (run h1 (login env user1 password1 ip1) w1).
Proof.
  intros Hunpaired H1 H2.
  rewrite (login_bad_credentials env W1 h1 w1 _ _ _ Hunpaired H1).
  rewrite (login_bad_credentials env W2 h2 w2 _ _ _ Hunpaired H2).
  split; reflexivity.
Qed.

Lemma login_failures_indistinguishable_witness :
  outcome (run Reference.answer
             (login Reference.local_env (VStr "root") (VStr "pw") (VStr "1.2.3.4"))
             Reference.local_world)
    = Done (Failure (VStr BAD_CREDENTIALS)) /\
  outcome (run Reference.answer
             (login Reference.local_env (VStr "admin") (VStr "guess") VUndefined)
             Reference.local_world)
    = outcome (run Reference.answer
                 (login Reference.local_env (VStr "root") (VStr "pw") (VStr "1.2.3.4"))
                 Reference.local_world).
Proof.
  apply (login_failures_indistinguishable Reference.local_env).
  - reflexivity.
  - exists (VBool true), (Reference.spend_attempt Reference.local_world),
      VNull, (Reference.spend_attempt Reference.local_world).
    repeat split; reflexivity.
  - exists (VBool true), (Reference.spend_attempt Reference.local_world),
      VNull, (Reference.spend_attempt Reference.local_world).
    repeat split; reflexivity.
Defined.

(** ** Refresh with login disabled *)

Lemma refreshToken_disabled (env : Env) (authHeader : string) :
  truthy (loginEnabled env) = false ->
  refreshToken env (VStr authHeader) =
  if strict_neq_string (fst (header_parts authHeader)) "Bearer"
  then Ret (Failure (VStr (wrong_scheme (fst (header_parts authHeader)))))
  else Ret (Success (snd (header_parts authHeader))).
Proof.
  intros Hoff. unfold refreshToken. rewrite Hoff. cbn [negb split_header bind].
  destruct (header_parts authHeader) as [scheme token]. reflexivity.
Qed.

(** C7.  With login disabled, [refreshToken] only looks at the first
    space-separated part of the header.  If that is "Bearer" the result is
    [{success: true, token}] with the token part of the header as it was
    split off (for a header "Bearer t" with a space-free [t] that is [t]);
    otherwise it is [{success: false}] with the reason "Wrong scheme
    <scheme>, expected Bearer".  Either way it is a plain return: run
    against any environment it makes no call (no verification, no
    collaborator) and leaves the environment as it was. *)
Theorem refreshToken_disabled_passthrough (env : Env) (authHeader : string)
  (W : Type) (h : handler W) (w : W) :
  truthy (loginEnabled env) = false ->
  exists scheme,
    nth_error (split " " authHeader) 0 = Some scheme /\
    (scheme = "Bearer" ->
       run h (refreshToken env (VStr authHeader)) w
         = (Done (Success (snd (header_parts authHeader))), w, []) /\
       forall token, count_char " " token = 0%nat ->
         authHeader = "Bearer " ++ token ->
         snd (header_parts authHeader) = VStr token) /\
    (scheme <> "Bearer" ->
       run h (refreshToken env (VStr authHeader)) w
         = (Done (Failure (VStr ("Wrong scheme " ++ scheme ++ ", expected Bearer"))),
            w, [])).
Proof.
  intros Hoff. destruct (header_scheme_is_string authHeader) as (scheme & Hnth & Hfst).
  exists scheme. split; [exact Hnth|].
  rewrite (refreshToken_disabled env authHeader Hoff), Hfst. split.
  - intros ->. split; [reflexivity|].
    intros token Htoken ->.
    exact (f_equal snd (header_parts_two "Bearer" token eq_refl Htoken)).
  - intros Hscheme. rewrite (strict_neq_string_true _ _ Hscheme). reflexivity.
Qed.

Lemma refreshToken_disabled_passthrough_witness :
  exists scheme,
    nth_error (split " " "Bearer abc.def") 0 = Some scheme /\
    (scheme = "Bearer" ->
       run Reference.answer (refreshToken Reference.open_env (VStr "Bearer abc.def"))
           Reference.local_world
         = (Done (Success (snd (header_parts "Bearer abc.def"))),
            Reference.local_world, []) /\
       forall token, count_char " " token = 0%nat ->
         "Bearer abc.def" = "Bearer " ++ token ->
         snd (header_parts "Bearer abc.def") = VStr token) /\
    (scheme <> "Bearer" ->
       run Reference.answer (refreshToken Reference.open_env (VStr "Bearer abc.def"))
           Reference.local_world
         = (Done (Failure (VStr ("Wrong scheme " ++ scheme ++ ", expected Bearer"))),
            Reference.local_world, [])).
Proof.
  apply (refreshToken_disabled_passthrough Reference.open_env "Bearer abc.def").
  reflexivity.
Defined.

(** ** Headers with more than one space *)

(** On a string the split succeeds and the rest is as the source reads. *)
Lemma authenticateWithError_string (env : Env) (authHeader : string) :
  authenticateWithError env (VStr authHeader) =
  let '(scheme, token) := header_parts authHeader in
  if strict_neq_string scheme "Bearer" then
    Throw (mkError (wrong_scheme scheme))
  else
    try_catch
      ('(secret, algorithm) <- verification_material env ;;
       decoded <- call (JwtVerify token secret [algorithm]) ;;
       verified <- verify_user env decoded ;;
       proofOnly <- get_prop decoded "identity_proof_only" ;;
       if truthy proofOnly then Ret (VBool false)
       else
         aud <- get_prop decoded "aud" ;;
         if strict_neq_string aud (bot_urn (botId env)) then Ret (VBool false)
         else verified_and_user verified decoded)
      (fun _ => Throw (mkError TOKEN_INVALID)).
Proof.
  unfold authenticateWithError. cbn [split_header bind].
  destruct (header_parts authHeader) as [scheme token]. reflexivity.
Qed.

Lemma authenticateWithError_parts (env : Env) (h1 h2 : string) :
  header_parts h1 = header_parts h2 ->
  authenticateWithError env (VStr h1) = authenticateWithError env (VStr h2).
Proof.
  intros Hparts. rewrite !authenticateWithError_string, Hparts. reflexivity.
Qed.

(** ** The verification steps *)

Section VerificationFacts.

Context {W : Type} (h : handler W) (env : Env).

Ltac crunch :=
  repeat (cbn;
          match goal with
          | |- context [h ?ev ?w] => destruct (h ev w) as [[?|?] ?]
          | |- context [if ?b then _ else _] => destruct b
          end).

Lemma run_verification_material (w : W) :
  run h (verification_material env) w =
  (match fst (h (material_event env) w) with
   | Done secret => Done (secret, mode_algorithm env)
   | Thrown err => Thrown err
   end, snd (h (material_event env) w), [material_event env]).
Proof.
  unfold verification_material, material_event, mode_algorithm.
  destruct (truthy (isCloudPaired env)); cbn;
    match goal with |- context [h ?ev w] => destruct (h ev w) as [[secret|err] w1] end;
    reflexivity.
Qed.

Lemma run_authenticate (authHeader : value) (w : W) :
  run h (authenticate env authHeader) w =
  let '(out, w1, c) := run h (authenticateWithError env authHeader) w in
  (collapse out, w1, c).
Proof.
  unfold authenticate. rewrite run_try_catch, run_bind.
  destruct (run h (authenticateWithError env authHeader) w) as [[[v|err] w1] c];
    cbn; rewrite app_nil_r; reflexivity.
Qed.

Lemma authenticate_never_throws (authHeader : value) (w : W) :
  exists v,
    outcome (run h (authenticate env authHeader) w) = Done v /\
    (forall err,
        outcome (run h (authenticateWithError env authHeader) w) = Thrown err ->
        v = VBool false).
Proof.
  rewrite run_authenticate.
  destruct (run h (authenticateWithError env authHeader) w) as [[[v|err] w1] c]; cbn.
  - exists v. split; [reflexivity|]. discriminate.
  - exists (VBool false). split; reflexivity.
Qed.

(** Inside [authenticateWithError] every throw becomes the one error. *)
Lemma authenticateWithError_throws (authHeader : string) (token : value)
  (w : W) (err : value) :
  header_parts authHeader = (VStr "Bearer", token) ->
  verification_throws h env token w err ->
  outcome (run h (authenticateWithError env (VStr authHeader)) w)
    = Thrown (mkError TOKEN_INVALID).
Proof.
  intros Hparts Hthrows. rewrite authenticateWithError_string, Hparts. cbn [strict_neq_string String.eqb Ascii.eqb Bool.eqb negb].
  rewrite run_try_catch, run_bind, run_verification_material.
  destruct Hthrows as [(w1 & Hm)|[(secret & w1 & w2 & Hm & Hv)
                                 |(secret & w1 & decoded & w2 & w3 & Hm & Hv & Hhook & Hu)]];
    rewrite Hm; cbn [fst snd].
  - reflexivity.
  - cbn. rewrite Hv. reflexivity.
  - cbn. rewrite Hv. cbn. unfold verify_user. rewrite Hhook. cbn.
    rewrite Hu. reflexivity.
Qed.

Lemma getUserIdentity_throws (token : value) (w : W) (err : value) :
  verification_throws h env token w err ->
  outcome (run h (getUserIdentity env token) w) = Thrown err.
Proof.
  intros Hthrows. unfold getUserIdentity.
  rewrite run_bind, run_verification_material.
  destruct Hthrows as [(w1 & Hm)|[(secret & w1 & w2 & Hm & Hv)
                                 |(secret & w1 & decoded & w2 & w3 & Hm & Hv & Hhook & Hu)]];
    rewrite Hm; cbn [fst snd].
  - reflexivity.
  - cbn. rewrite Hv. reflexivity.
  - cbn. rewrite Hv. cbn. unfold verify_user. rewrite Hhook. cbn.
    rewrite Hu. reflexivity.
Qed.

Lemma run_verify_user (decoded : value) (w2 : W) (verified : value) (w3 : W) :
  hook_answers h env decoded w2 verified w3 ->
  exists hookCalls,
    run h (verify_user env decoded) w2 = (Done verified, w3, hookCalls).
Proof.
  unfold hook_answers, verify_user. destruct (hasVerifyUser env).
  - intros Hanswer. cbn. rewrite Hanswer. eexists. reflexivity.
  - intros [-> ->]. eexists. reflexivity.
Qed.

Lemma run_verified_and_user (verified decoded : value) (w : W) :
  nullish decoded = false ->
  run h (verified_and_user verified decoded) w
    = (Done (js_and verified (prop decoded "user")), w, []).
Proof.
  intros Hobj. unfold verified_and_user, js_and, get_prop. rewrite Hobj.
  destruct (truthy verified); reflexivity.
Qed.

Lemma getUserIdentity_passes (token : value) (w : W)
  (decoded verified : value) (w3 : W) :
  verification_passes h env token w decoded verified w3 ->
  outcome (run h (getUserIdentity env token) w) =
  if strict_neq_string (prop decoded "aud") (bot_urn (botId env))
  then Done (VBool false)
  else Done (js_and verified (prop decoded "user")).
Proof.
  intros (secret & w1 & w2 & Hm & Hv & Hanswer & Hobj).
  destruct (run_verify_user _ _ _ _ Hanswer) as (hc & Hhook).
  unfold getUserIdentity.
  rewrite run_bind, run_verification_material, Hm. cbn [fst snd].
  rewrite run_bind, run_call, Hv. cbn [fst snd].
  rewrite run_bind, Hhook.
  unfold get_prop at 1. rewrite Hobj. cbn [bind].
  destruct (strict_neq_string _ _).
  - reflexivity.
  - rewrite (run_verified_and_user _ _ _ Hobj). reflexivity.
Qed.

Lemma authenticateWithError_passes (authHeader : string) (token : value) (w : W)
  (decoded verified : value) (w3 : W) :
  header_parts authHeader = (VStr "Bearer", token) ->
  verification_passes h env token w decoded verified w3 ->
  exists c,
    run h (authenticateWithError env (VStr authHeader)) w =
    (if truthy (prop decoded "identity_proof_only") then Done (VBool false)
     else if strict_neq_string (prop decoded "aud") (bot_urn (botId env))
          then Done (VBool false)
          else Done (js_and verified (prop decoded "user")),
     w3, c).
Proof.
  intros Hparts (secret & w1 & w2 & Hm & Hv & Hanswer & Hobj).
  destruct (run_verify_user _ _ _ _ Hanswer) as (hc & Hhook).
  rewrite authenticateWithError_string, Hparts.
  cbn [strict_neq_string String.eqb Ascii.eqb Bool.eqb negb].
  rewrite run_try_catch, run_bind, run_verification_material, Hm. cbn [fst snd].
  rewrite run_bind, run_call, Hv. cbn [fst snd].
  rewrite run_bind, Hhook.
  unfold get_prop. rewrite Hobj. cbn [bind].
  destruct (truthy (prop decoded "identity_proof_only")).
  - cbn. eexists. reflexivity.
  - destruct (strict_neq_string _ _).
    + cbn. eexists. reflexivity.
    + rewrite (run_verified_and_user _ _ _ Hobj). cbn. eexists. reflexivity.
Qed.

Lemma authenticateWithError_one_algorithm (authHeader : value) (w : W) :
  Forall (verifies_only_with (mode_algorithm env))
         (calls (run h (authenticateWithError env authHeader) w)).
Proof.
  destruct authHeader as [| | | |s|]; try (cbn; constructor).
  rewrite authenticateWithError_string.
  unfold verification_material, mode_algorithm,
    verify_user, verified_and_user, get_prop, calls.
  destruct (header_parts s) as [scheme token].
  destruct (truthy (isCloudPaired env)); crunch; repeat constructor.
Qed.

Lemma getUserIdentity_one_algorithm (token : value) (w : W) :
  Forall (verifies_only_with (mode_algorithm env))
         (calls (run h (getUserIdentity env token) w)).
Proof.
  unfold getUserIdentity, verification_material, mode_algorithm,
    verify_user, verified_and_user, get_prop, calls.
  destruct (truthy (isCloudPaired env)); crunch; repeat constructor.
Qed.

(** What [refreshToken] does with a throw of [authenticateWithError]. *)
Lemma refreshToken_reports_throw (authHeader : value) (w : W) (err : value) :
  truthy (loginEnabled env) = true ->
  outcome (run h (authenticateWithError env authHeader) w) = Thrown err ->
  nullish err = false ->
  outcome (run h (refreshToken env authHeader) w)
    = Done (Failure (js_or (prop err "message") (VStr TOKEN_INVALID))).
Proof.
  intros Hon Hthrown Hobj. unfold refreshToken. rewrite Hon. cbn [negb].
  rewrite run_try_catch, run_bind.
  destruct (run h (authenticateWithError env authHeader) w) as [[out w1] c].
  cbn in Hthrown. subst out.
  unfold failure_reason, get_prop. rewrite Hobj. reflexivity.
Qed.

Lemma verification_cases (token : value) (w : W) :
  (exists err, verification_throws h env token w err) \/
  (exists secret w1 decoded w2 verified w3,
      h (material_event env) w = (Done secret, w1) /\
      h (JwtVerify token secret [mode_algorithm env]) w1 = (Done decoded, w2) /\
      hook_answers h env decoded w2 verified w3).
Proof.
  destruct (h (material_event env) w) as [[secret|err] w1] eqn:Hm;
    [|left; exists err; left; exists w1; exact Hm].
  destruct (h (JwtVerify token secret [mode_algorithm env]) w1)
    as [[decoded|err] w2] eqn:Hv;
    [|left; exists err; right; left; exists secret, w1, w2; split; assumption].
  destruct (hasVerifyUser env) eqn:Hu.
  - destruct (h (VerifyUser decoded) w2) as [[verified|err] w3] eqn:Hh.
    + right. exists secret, w1, decoded, w2, verified, w3.
      repeat split; try assumption.
      unfold hook_answers. rewrite Hu. exact Hh.
    + left. exists err. right. right. exists secret, w1, decoded, w2, w3.
      repeat split; assumption.
  - right. exists secret, w1, decoded, w2, (VBool true), w2.
    repeat split; try assumption.
    unfold hook_answers. rewrite Hu. split; reflexivity.
Qed.

(** After the key fetch the token of the header goes to [jwt.verify]. *)
Lemma authenticateWithError_verifies_token (authHeader : string) (token : value)
  (w : W) (secret : value) (w1 : W) :
  header_parts authHeader = (VStr "Bearer", token) ->
  h (material_event env) w = (Done secret, w1) ->
  exists rest,
    calls (run h (authenticateWithError env (VStr authHeader)) w)
      = material_event env :: JwtVerify token secret [mode_algorithm env] :: rest.
Proof.
  intros Hparts Hm. rewrite authenticateWithError_string, Hparts.
  cbn [strict_neq_string String.eqb Ascii.eqb Bool.eqb negb].
  rewrite run_try_catch, run_bind, run_verification_material, Hm. cbn [fst snd].
  rewrite run_bind, run_call.
  destruct (h (JwtVerify token secret [mode_algorithm env]) w1) as [[decoded|err] w2];
    cbn [fst snd].
  - match goal with
    | |- context [run h ?p w2] => destruct (run h p w2) as [[[v|err] w3] c]
    end; cbn; eexists; reflexivity.
  - cbn. eexists. reflexivity.
Qed.

Lemma truthy_prop_not_nullish (v : value) (k : string) :
  truthy (prop v k) = true -> nullish v = false.
Proof.
  destruct v; cbn; intros H; try reflexivity; discriminate.
Qed.

End VerificationFacts.

(** ** Headers with more than one space, continued *)

(** C10.  [split(' ')] cuts at every space.  A header with two or more
    spaces is [scheme ++ " " ++ token ++ " " ++ rest] with no space in
    [scheme] and [token]; the helper takes [scheme] and [token] and never
    looks at [rest].  [authenticateWithError] is the same program as on
    [scheme ++ " " ++ token], and with the scheme "Bearer" the token it
    hands to [jwt.verify], after the key fetch, is [token], the middle
    segment; [refreshToken] with login disabled and scheme "Bearer"
    returns [token], the middle segment only. *)
Theorem header_tail_is_discarded (env : Env) (authHeader : string) :
  (2 <= count_char " " authHeader)%nat ->
  exists scheme token rest,
    authHeader = scheme ++ " " ++ token ++ " " ++ rest /\
    count_char " " scheme = 0%nat /\ count_char " " token = 0%nat /\
    header_parts authHeader = (VStr scheme, VStr token) /\
    authenticateWithError env (VStr authHeader)
      = authenticateWithError env (VStr (scheme ++ " " ++ token)) /\
    (forall (W : Type) (h : handler W) (w : W) (secret : value) (w1 : W),
        scheme = "Bearer" ->
        h (material_event env) w = (Done secret, w1) ->
        exists others,
          calls (run h (authenticateWithError env (VStr authHeader)) w)
            = material_event env
                :: JwtVerify (VStr token) secret [mode_algorithm env] :: others) /\
    (truthy (loginEnabled env) = false -> scheme = "Bearer" ->
       refreshToken env (VStr authHeader) = Ret (Success (VStr token))).
Proof.
  intros Hcount.
  destruct (cut_at_first_sep " " authHeader) as (scheme & tail & -> & Hscheme & Hn);
    [lia|].
  destruct (cut_at_first_sep " " tail) as (token & rest & -> & Htoken & _); [lia|].
  exists scheme, token, rest.
  pose proof (header_parts_three scheme token rest Hscheme Htoken) as Hparts.
  change (scheme ++ String " " (token ++ String " " rest))
    with (scheme ++ " " ++ token ++ " " ++ rest).
  split; [reflexivity|]. split; [exact Hscheme|]. split; [exact Htoken|].
  split; [exact Hparts|]. split; [|split].
  - apply authenticateWithError_parts.
    rewrite Hparts. symmetry. apply header_parts_two; assumption.
  - intros W h w secret w1 -> Hm.
    exact (authenticateWithError_verifies_token h env _ _ _ _ _ Hparts Hm).
  - intros Hoff ->.
    rewrite (refreshToken_disabled env _ Hoff), Hparts. reflexivity.
Qed.

Lemma header_tail_is_discarded_witness :
  exists scheme token rest,
    "Bearer abc def ghi" = scheme ++ " " ++ token ++ " " ++ rest /\
    count_char " " scheme = 0%nat /\ count_char " " token = 0%nat /\
    header_parts "Bearer abc def ghi" = (VStr scheme, VStr token) /\
    authenticateWithError Reference.open_env (VStr "Bearer abc def ghi")
      = authenticateWithError Reference.open_env (VStr (scheme ++ " " ++ token)) /\
    (forall (W : Type) (h : handler W) (w : W) (secret : value) (w1 : W),
        scheme = "Bearer" ->
        h (material_event Reference.open_env) w = (Done secret, w1) ->
        exists others,
          calls (run h (authenticateWithError Reference.open_env
                          (VStr "Bearer abc def ghi")) w)
            = material_event Reference.open_env
                :: JwtVerify (VStr token) secret [mode_algorithm Reference.open_env]
                :: others) /\
    (truthy (loginEnabled Reference.open_env) = false -> scheme = "Bearer" ->
       refreshToken Reference.open_env (VStr "Bearer abc def ghi")
         = Ret (Success (VStr token))).
Proof.
  apply (header_tail_is_discarded Reference.open_env "Bearer abc def ghi").
  cbn. lia.
Defined.

Example refresh_disabled_echoes_middle_segment :
  refreshToken Reference.open_env (VStr "Bearer abc def ghi") = Ret (Success (VStr "abc")).
Proof. reflexivity. Qed.

Example verification_receives_middle_segment :
  calls (run Reference.answer
           (authenticateWithError Reference.paired_env
              (VStr "Bearer RS256.session trailing words"))
           Reference.paired_world)
    = [GetCertificate;
       JwtVerify (VStr "RS256.session") (VStr "cert") ["RS256"];
       VerifyUser (VObj (Reference.cloud_claims []))] /\
  outcome (run Reference.answer
             (authenticateWithError Reference.paired_env
                (VStr "Bearer RS256.session trailing words"))
             Reference.paired_world) = Done (VStr "alice").
Proof. split; reflexivity. Qed.

(** ** Throwing and returning false *)

(** C3 (amended).  [authenticate] never throws.  In every environment
    and for every header it ends with a value: the value
    [authenticateWithError] returned, and [false] where
    [authenticateWithError] threw, after the same calls.  So a missing
    header, a bad scheme, a failing key fetch, a token [jwt.verify]
    refuses (bad signature, wrong algorithm, expiry), a throwing hook and
    an audience mismatch all resolve to [false].  [getUserIdentity] has no
    handler: it resolves an audience mismatch to [false], but a failure of
    the key fetch, of [jwt.verify] or of the [verifyUser] hook is thrown
    to its caller, unchanged. *)
Theorem authenticate_collapses_getUserIdentity_propagates
  (env : Env) (W : Type) (h : handler W) (w : W) (authHeader token : value) :
  run h (authenticate env authHeader) w
    = (collapse (outcome (run h (authenticateWithError env authHeader) w)),
       final (run h (authenticateWithError env authHeader) w),
       calls (run h (authenticateWithError env authHeader) w)) /\
  (exists v, outcome (run h (authenticate env authHeader) w) = Done v) /\
  ((forall s, authHeader <> VStr s) ->
   outcome (run h (authenticate env authHeader) w) = Done (VBool false)) /\
  (forall s scheme,
      authHeader = VStr s ->
      nth_error (split " " s) 0 = Some scheme -> scheme <> "Bearer" ->
      outcome (run h (authenticate env authHeader) w) = Done (VBool false)) /\
  (forall s err,
      authHeader = VStr s -> header_parts s = (VStr "Bearer", token) ->
      verification_throws h env token w err ->
      outcome (run h (authenticate env authHeader) w) = Done (VBool false) /\
      outcome (run h (getUserIdentity env token) w) = Thrown err) /\
  (forall s decoded verified w3,
      authHeader = VStr s -> header_parts s = (VStr "Bearer", token) ->
      verification_passes h env token w decoded verified w3 ->
      strict_neq_string (prop decoded "aud") (bot_urn (botId env)) = true ->
      outcome (run h (authenticate env authHeader) w) = Done (VBool false) /\
      outcome (run h (getUserIdentity env token) w) = Done (VBool false)).
Proof.
  assert (Hrun : run h (authenticate env authHeader) w
            = (collapse (outcome (run h (authenticateWithError env authHeader) w)),
               final (run h (authenticateWithError env authHeader) w),
               calls (run h (authenticateWithError env authHeader) w))).
  { rewrite run_authenticate.
    destruct (run h (authenticateWithError env authHeader) w) as [[out w1] c].
    reflexivity. }
  split; [exact Hrun|]. rewrite Hrun. unfold outcome at 1 3 4 5 6. cbn [fst].
  split; [|split; [|split; [|split]]].
  - destruct (outcome (run h (authenticateWithError env authHeader) w)) as [v|err];
      eexists; reflexivity.
  - intros Hmissing. destruct authHeader; try reflexivity.
    exfalso. exact (Hmissing _ eq_refl).
  - intros s scheme -> Hnth Hscheme. rewrite authenticateWithError_string.
    destruct (header_scheme_is_string s) as (scheme' & Hnth' & Hfst).
    rewrite Hnth in Hnth'. injection Hnth' as <-.
    destruct (header_parts s) as [sch tok]. cbn [fst] in Hfst. subst sch.
    rewrite (strict_neq_string_true _ _ Hscheme). reflexivity.
  - intros s err -> Hparts Hthrows.
    rewrite (authenticateWithError_throws h env _ _ _ _ Hparts Hthrows).
    split; [reflexivity|]. exact (getUserIdentity_throws h env _ _ _ Hthrows).
  - intros s decoded verified w3 -> Hparts Hpass Haud.
    destruct (authenticateWithError_passes h env _ _ _ _ _ _ Hparts Hpass) as (c & Hstrict).
    rewrite Hstrict, (getUserIdentity_passes h env _ _ _ _ _ Hpass), Haud.
    unfold outcome. cbn [fst].
    destruct (truthy (prop decoded "identity_proof_only")); split; reflexivity.
Qed.

Lemma authenticate_collapses_getUserIdentity_propagates_witness :
  (outcome (run Reference.answer
              (authenticate Reference.paired_env (VStr "Bearer RS256.stale"))
              Reference.paired_world) = Done (VBool false) /\
   outcome (run Reference.answer
              (getUserIdentity Reference.paired_env (VStr "RS256.stale"))
              Reference.paired_world) = Thrown (mkError "jwt expired")) /\
  (outcome (run Reference.answer
              (authenticate Reference.paired_env (VStr "Bearer RS256.other"))
              Reference.paired_world) = Done (VBool false) /\
   outcome (run Reference.answer
              (getUserIdentity Reference.paired_env (VStr "RS256.other"))
              Reference.paired_world) = Done (VBool false)) /\
  outcome (run Reference.answer
             (authenticate Reference.paired_env (VStr "Basic RS256.session"))
             Reference.paired_world) = Done (VBool false) /\
  outcome (run Reference.answer (authenticate Reference.paired_env VUndefined)
               Reference.paired_world) = Done (VBool false).
Proof.
  assert (Hthrows : verification_throws Reference.answer Reference.paired_env
                      (VStr "RS256.stale") Reference.paired_world
                      (mkError "jwt expired")).
  { right. left.
    exists (VStr "cert"), Reference.paired_world, Reference.paired_world.
    split; reflexivity. }
  assert (Hpass : verification_passes Reference.answer Reference.paired_env
                    (VStr "RS256.other") Reference.paired_world
                    (VObj [("user", VStr "alice"); ("aud", VStr "urn:bot/b2");
                           ("exp", VNum "5000")])
                    (VBool true) Reference.paired_world).
  { exists (VStr "cert"), Reference.paired_world, Reference.paired_world.
    repeat split; reflexivity. }
  pose proof (authenticate_collapses_getUserIdentity_propagates
                Reference.paired_env _ Reference.answer Reference.paired_world
                (VStr "Bearer RS256.stale") (VStr "RS256.stale")) as Hstale.
  pose proof (authenticate_collapses_getUserIdentity_propagates
                Reference.paired_env _ Reference.answer Reference.paired_world
                (VStr "Bearer RS256.other") (VStr "RS256.other")) as Hother.
  pose proof (authenticate_collapses_getUserIdentity_propagates
                Reference.paired_env _ Reference.answer Reference.paired_world
                (VStr "Basic RS256.session") VUndefined) as Hbasic.
  pose proof (authenticate_collapses_getUserIdentity_propagates
                Reference.paired_env _ Reference.answer Reference.paired_world
                VUndefined VUndefined) as Hmissing.
  split; [|split; [|split]].
  - exact (proj1 (proj2 (proj2 (proj2 (proj2 Hstale)))) _ _ eq_refl eq_refl Hthrows).
  - exact (proj2 (proj2 (proj2 (proj2 (proj2 Hother)))) _ _ _ _ eq_refl eq_refl
                 Hpass eq_refl).
  - refine (proj1 (proj2 (proj2 (proj2 Hbasic))) _ "Basic" eq_refl eq_refl _).
    discriminate.
  - refine (proj1 (proj2 (proj2 Hmissing)) _). discriminate.
Defined.

(** C3, as stated, fails for [getUserIdentity]: a token with a foreign
    algorithm makes it throw instead of returning [false]. *)
Lemma getUserIdentity_throws_counterexample :
  outcome (run Reference.answer
             (getUserIdentity Reference.paired_env (VStr "HS256.forged"))
             Reference.paired_world) = Thrown (mkError "invalid algorithm") /\
  ~ (forall (W : Type) (h : handler W) (env : Env) (token : value) (w : W),
        outcome (run h (getUserIdentity env token) w) = Done (VBool false) \/
        exists principal, outcome (run h (getUserIdentity env token) w) = Done principal).
Proof.
  split; [reflexivity|].
  intros Hnever.
  destruct (Hnever _ Reference.answer Reference.paired_env (VStr "HS256.forged")
                   Reference.paired_world) as [H|[principal H]];
    cbn in H; discriminate.
Qed.

(** ** One algorithm per mode *)

Lemma existsb_eqb_In (a : string) (l : list string) :
  existsb (String.eqb a) l = true -> In a l.
Proof.
  intros H. apply existsb_exists in H. destruct H as (b & Hin & Heq).
  apply String.eqb_eq in Heq. subst b. exact Hin.
Qed.

(** The reference library honours the [algorithms] option. *)
Lemma reference_refuses_unlisted_algorithms :
  refuses_unlisted_algorithms Reference.answer Reference.stated_algorithm.
Proof.
  intros token secret algorithms w Hunlisted. cbn [Reference.answer].
  unfold Reference.jwt_verify.
  destruct (Reference.stated_algorithm token) as [alg|].
  - destruct (existsb (String.eqb alg) algorithms) eqn:Hlisted.
    + exfalso. exact (Hunlisted alg eq_refl (existsb_eqb_In _ _ Hlisted)).
    + cbn [negb]. eexists. eexists. reflexivity.
  - eexists. eexists. reflexivity.
Qed.

(** C4.  Every [jwt.verify] call of [authenticateWithError],
    [authenticate] and [getUserIdentity] lists exactly one algorithm, the
    one of the mode: RS256 when paired, HS256 when not.  So, with a token
    library that refuses a token whose header algorithm is not listed, a
    token stating any other algorithm is rejected by all three, whatever
    key signed it: [authenticateWithError] throws "The token is invalid or
    expired", [authenticate] returns [false], [getUserIdentity] throws. *)
Theorem other_algorithm_is_rejected (env : Env) (W : Type) (h : handler W)
  (alg_of : value -> option string) (w : W) (authHeader : string) (token : value) :
  refuses_unlisted_algorithms h alg_of ->
  alg_of token <> Some (mode_algorithm env) ->
  header_parts authHeader = (VStr "Bearer", token) ->
  mode_algorithm env = (if truthy (isCloudPaired env) then "RS256" else "HS256") /\
  Forall (verifies_only_with (mode_algorithm env))
         (calls (run h (authenticateWithError env (VStr authHeader)) w)) /\
  Forall (verifies_only_with (mode_algorithm env))
         (calls (run h (authenticate env (VStr authHeader)) w)) /\
  Forall (verifies_only_with (mode_algorithm env))
         (calls (run h (getUserIdentity env token) w)) /\
  outcome (run h (authenticateWithError env (VStr authHeader)) w)
    = Thrown (mkError TOKEN_INVALID) /\
  outcome (run h (authenticate env (VStr authHeader)) w) = Done (VBool false) /\
  exists err, outcome (run h (getUserIdentity env token) w) = Thrown err.
Proof.
  intros Hlib Halg Hparts.
  assert (Hthrows : exists err, verification_throws h env token w err).
  { destruct (h (material_event env) w) as [[secret|err] w1] eqn:Hm.
    - destruct (Hlib token secret [mode_algorithm env] w1) as (err & w2 & Hv).
      + intros a Ha [<-|[]]. exact (Halg Ha).
      + exists err. right. left. exists secret, w1, w2. split; assumption.
    - exists err. left. exists w1. exact Hm. }
  destruct Hthrows as (err & Hthrows).
  pose proof (authenticateWithError_throws h env _ _ _ _ Hparts Hthrows) as Hstrict.
  pose proof (authenticateWithError_one_algorithm h env (VStr authHeader) w) as Hone.
  split; [reflexivity|]. split; [exact Hone|].
  rewrite run_authenticate.
  destruct (run h (authenticateWithError env (VStr authHeader)) w) as [[out w1] c].
  cbn in Hstrict. subst out.
  split; [exact Hone|].
  split; [apply getUserIdentity_one_algorithm|].
  split; [reflexivity|]. split; [reflexivity|].
  exists err. exact (getUserIdentity_throws h env _ _ _ Hthrows).
Qed.

Lemma other_algorithm_is_rejected_witness :
  outcome (run Reference.answer
             (authenticateWithError Reference.paired_env (VStr "Bearer HS256.forged"))
             Reference.paired_world) = Thrown (mkError TOKEN_INVALID) /\
  outcome (run Reference.answer
             (authenticate Reference.paired_env (VStr "Bearer HS256.forged"))
             Reference.paired_world) = Done (VBool false) /\
  exists err,
    outcome (run Reference.answer
               (getUserIdentity Reference.paired_env (VStr "HS256.forged"))
               Reference.paired_world) = Thrown err.
Proof.
  refine (let H := other_algorithm_is_rejected
                     Reference.paired_env Reference.World Reference.answer
                     Reference.stated_algorithm Reference.paired_world
                     "Bearer HS256.forged" (VStr "HS256.forged")
                     reference_refuses_unlisted_algorithms _ eq_refl in
          proj2 (proj2 (proj2 (proj2 H)))).
  cbn. discriminate.
Defined.

(** ** Proof-only tokens *)

(** C5 (amended).  A token whose claims carry a truthy
    [identity_proof_only] never yields a principal from
    [authenticateWithError] (it returns [false], or throws "The token is
    invalid or expired" when verification itself fails) and
    [authenticate] returns [false].  [getUserIdentity] has no such check.
    When the key fetch and [jwt.verify] go through it answers [false] on
    an audience mismatch and otherwise [verified && decoded.user], where
    [verified] is the answer of the [verifyUser] hook: the [user] claim
    when the hook is not defined or answers a truthy value, the hook's own
    falsy answer when it refuses. *)
Theorem proof_only_token_is_identity_only (env : Env) (W : Type) (h : handler W)
  (w : W) (authHeader : string) (token : value) :
  header_parts authHeader = (VStr "Bearer", token) ->
  carries_proof_only h env token w ->
  (outcome (run h (authenticateWithError env (VStr authHeader)) w) = Done (VBool false) \/
   outcome (run h (authenticateWithError env (VStr authHeader)) w)
     = Thrown (mkError TOKEN_INVALID)) /\
  outcome (run h (authenticate env (VStr authHeader)) w) = Done (VBool false) /\
  (forall decoded verified w3,
      verification_passes h env token w decoded verified w3 ->
      outcome (run h (authenticateWithError env (VStr authHeader)) w) = Done (VBool false) /\
      outcome (run h (getUserIdentity env token) w) =
        (if strict_neq_string (prop decoded "aud") (bot_urn (botId env))
         then Done (VBool false)
         else if truthy verified then Done (prop decoded "user")
              else Done verified) /\
      (hasVerifyUser env = false ->
       prop decoded "aud" = VStr (bot_urn (botId env)) ->
       outcome (run h (getUserIdentity env token) w) = Done (prop decoded "user"))).
Proof.
  intros Hparts Hflag.
  assert (Hpass : forall decoded verified w3,
             verification_passes h env token w decoded verified w3 ->
             outcome (run h (authenticateWithError env (VStr authHeader)) w)
               = Done (VBool false)).
  { intros decoded verified w3 Hpass.
    destruct (authenticateWithError_passes h env _ _ _ _ _ _ Hparts Hpass) as (c & Hrun).
    destruct Hpass as (secret & w1 & w2 & Hm & Hv & _ & _).
    rewrite Hrun, (Hflag _ _ _ _ Hm Hv). reflexivity. }
  assert (Hstrict :
            outcome (run h (authenticateWithError env (VStr authHeader)) w) = Done (VBool false) \/
            outcome (run h (authenticateWithError env (VStr authHeader)) w)
              = Thrown (mkError TOKEN_INVALID)).
  { destruct (verification_cases h env token w)
      as [(err & Hthrows)|(secret & w1 & decoded & w2 & verified & w3 & Hm & Hv & Hhook)].
    - right. exact (authenticateWithError_throws h env _ _ _ _ Hparts Hthrows).
    - left. apply (Hpass decoded verified w3).
      exists secret, w1, w2. repeat split; try assumption.
      exact (truthy_prop_not_nullish _ _ (Hflag _ _ _ _ Hm Hv)). }
  split; [exact Hstrict|]. split.
  - rewrite run_authenticate.
    destruct (run h (authenticateWithError env (VStr authHeader)) w) as [[out w1] c].
    cbn in Hstrict. destruct Hstrict as [->| ->]; reflexivity.
  - intros decoded verified w3 Hp. split; [exact (Hpass _ _ _ Hp)|].
    rewrite (getUserIdentity_passes h env _ _ _ _ _ Hp). unfold js_and. split.
    + destruct (strict_neq_string _ _); [reflexivity|].
      destruct (truthy verified); reflexivity.
    + intros Hnohook Haud.
      destruct Hp as (secret & w1 & w2 & _ & _ & Hanswer & _).
      unfold hook_answers in Hanswer. rewrite Hnohook in Hanswer.
      destruct Hanswer as [-> _]. rewrite Haud. cbn [strict_neq_string].
      rewrite String.eqb_refl. reflexivity.
Qed.

Lemma proof_only_token_is_identity_only_witness :
  (outcome (run Reference.answer
              (authenticate Reference.paired_env (VStr "Bearer RS256.proof"))
              Reference.paired_world) = Done (VBool false) /\
   outcome (run Reference.answer
              (authenticateWithError Reference.paired_env (VStr "Bearer RS256.proof"))
              Reference.paired_world) = Done (VBool false) /\
   outcome (run Reference.answer
              (getUserIdentity Reference.paired_env (VStr "RS256.proof"))
              Reference.paired_world) = Done (VStr "alice")) /\
  (outcome (run Reference.answer
              (authenticate Reference.paired_env (VStr "Bearer RS256.proof"))
              Faults.refusing_world) = Done (VBool false) /\
   outcome (run Reference.answer
              (getUserIdentity Reference.paired_env (VStr "RS256.proof"))
              Faults.refusing_world) = Done (VBool false)).
Proof.
  assert (Hflag : forall w, w = Reference.paired_world \/ w = Faults.refusing_world ->
             carries_proof_only Reference.answer Reference.paired_env
                                (VStr "RS256.proof") w).
  { intros w [-> | ->] secret w1 decoded w2 Hm Hv;
      cbn in Hm; injection Hm as <- <-;
      cbn in Hv; injection Hv as <- _; reflexivity. }
  assert (Hgranted : verification_passes Reference.answer Reference.paired_env
               (VStr "RS256.proof") Reference.paired_world
               (VObj (Reference.cloud_claims [("identity_proof_only", VBool true)]))
               (VBool true) Reference.paired_world).
  { exists (VStr "cert"), Reference.paired_world, Reference.paired_world.
    repeat split; reflexivity. }
  assert (Hrefused : verification_passes Reference.answer Reference.paired_env
               (VStr "RS256.proof") Faults.refusing_world
               (VObj (Reference.cloud_claims [("identity_proof_only", VBool true)]))
               (VBool false) Faults.refusing_world).
  { exists (VStr "cert"), Faults.refusing_world, Faults.refusing_world.
    repeat split; reflexivity. }
  pose proof (proof_only_token_is_identity_only
                Reference.paired_env Reference.World Reference.answer
                Reference.paired_world "Bearer RS256.proof"
                (VStr "RS256.proof") eq_refl
                (Hflag _ (or_introl eq_refl))) as Hgrant.
  pose proof (proof_only_token_is_identity_only
                Reference.paired_env Reference.World Reference.answer
                Faults.refusing_world "Bearer RS256.proof"
                (VStr "RS256.proof") eq_refl
                (Hflag _ (or_intror eq_refl))) as Hrefuse.
  split.
  - split; [exact (proj1 (proj2 Hgrant))|].
    destruct (proj2 (proj2 Hgrant) _ _ _ Hgranted) as (Hs & Hi & _).
    split; [exact Hs|exact Hi].
  - split; [exact (proj1 (proj2 Hrefuse))|].
    exact (proj1 (proj2 (proj2 (proj2 Hrefuse) _ _ _ Hrefused))).
Defined.

(** C5, as stated, fails: the signature and audience checks pass for the
    control plane's proof-only token, yet with a [verifyUser] hook that
    answers [false] [getUserIdentity] returns [false], not the identity
    "alice". *)
Lemma getUserIdentity_hook_gate_counterexample :
  (Reference.jwt_verify (VStr "RS256.proof") (VStr "cert") ["RS256"]
                        Faults.refusing_world
     = Done (VObj (Reference.cloud_claims [("identity_proof_only", VBool true)])) /\
   prop (VObj (Reference.cloud_claims [("identity_proof_only", VBool true)])) "aud"
     = VStr (bot_urn (botId Reference.paired_env)) /\
   prop (VObj (Reference.cloud_claims [("identity_proof_only", VBool true)])) "user"
     = VStr "alice" /\
   outcome (run Reference.answer
              (getUserIdentity Reference.paired_env (VStr "RS256.proof"))
              Faults.refusing_world) = Done (VBool false)) /\
  ~ (forall (W : Type) (h : handler W) (env : Env) (token : value) (w : W)
            (secret : value) (w1 : W) (decoded : value) (w2 : W),
        h (material_event env) w = (Done secret, w1) ->
        h (JwtVerify token secret [mode_algorithm env]) w1 = (Done decoded, w2) ->
        truthy (prop decoded "identity_proof_only") = true ->
        prop decoded "aud" = VStr (bot_urn (botId env)) ->
        outcome (run h (getUserIdentity env token) w) = Done (prop decoded "user")).
Proof.
  split; [repeat split|].
  intros Hclaim.
  specialize (Hclaim _ Reference.answer Reference.paired_env (VStr "RS256.proof")
                     Faults.refusing_world (VStr "cert") Faults.refusing_world
                     (VObj (Reference.cloud_claims [("identity_proof_only", VBool true)]))
                     Faults.refusing_world eq_refl eq_refl eq_refl eq_refl).
  cbn in Hclaim. discriminate.
Qed.

(** ** Refresh with login enabled *)

Section RefreshFacts.

Context {W : Type} (h : handler W) (env : Env).

(** [refreshToken] signs whatever value [authenticateWithError] returns. *)
Lemma refreshToken_signs_returned_value (authHeader : string) (w : W)
  (loginUser : value) (w3 : W) (c : list Event)
  (secret : value) (w4 : W) (fresh : value) (w5 : W) :
  truthy (loginEnabled env) = true ->
  run h (authenticateWithError env (VStr authHeader)) w = (Done loginUser, w3, c) ->
  h GetSecret w3 = (Done secret, w4) ->
  h (JwtSign (VObj [("user", loginUser)]) secret (sign_options env)) w4
    = (Done fresh, w5) ->
  run h (refreshToken env (VStr authHeader)) w =
  (Done (Success fresh), w5,
   (c ++ [GetSecret; JwtSign (VObj [("user", loginUser)]) secret (sign_options env)])%list).
Proof.
  intros Hon Hauth Hsecret Hsign. unfold refreshToken. rewrite Hon. cbn [negb].
  rewrite run_try_catch, run_bind, Hauth.
  unfold buildToken. rewrite !run_bind, run_call, Hsecret. cbn [fst snd].
  change {| issuer := "bot.root"; expiresIn := tokenExpiry env; algorithm := "HS256" |}
    with (sign_options env).
  rewrite run_call, Hsign. reflexivity.
Qed.

End RefreshFacts.

(** C9.  [authenticateWithError] has a second way to reject, besides
    throwing.  When the key fetch and [jwt.verify] go through and the hook
    answers, but the token is proof-only, or its audience is not the bot's
    URN, or the answer of the [verifyUser] hook is [false],
    [authenticateWithError] returns the value [false].  [refreshToken]
    with login enabled then takes [false] for the principal: it calls
    [jwt.sign] on the payload [{user: false}] and returns
    [{success: true}] with the token signed. *)
Theorem refresh_signs_false_principal (env : Env) (W : Type) (h : handler W)
  (w : W) (authHeader : string) (token key : value) (w1 : W)
  (decoded : value) (w2 : W) (verified : value) (w3 : W)
  (secret : value) (w4 : W) (fresh : value) (w5 : W) :
  header_parts authHeader = (VStr "Bearer", token) ->
  h (material_event env) w = (Done key, w1) ->
  h (JwtVerify token key [mode_algorithm env]) w1 = (Done decoded, w2) ->
  nullish decoded = false ->
  hook_answers h env decoded w2 verified w3 ->
  (truthy (prop decoded "identity_proof_only") = true \/
   strict_neq_string (prop decoded "aud") (bot_urn (botId env)) = true \/
   (hasVerifyUser env = true /\
    h (VerifyUser decoded) w2 = (Done (VBool false), w3))) ->
  truthy (loginEnabled env) = true ->
  h GetSecret w3 = (Done secret, w4) ->
  h (JwtSign (VObj [("user", VBool false)]) secret (sign_options env)) w4
    = (Done fresh, w5) ->
  outcome (run h (authenticateWithError env (VStr authHeader)) w) = Done (VBool false) /\
  outcome (run h (refreshToken env (VStr authHeader)) w) = Done (Success fresh) /\
  In (JwtSign (VObj [("user", VBool false)]) secret (sign_options env))
     (calls (run h (refreshToken env (VStr authHeader)) w)).
Proof.
  intros Hparts Hm Hv Hobj Hanswer Hwhy Hon Hsecret Hsign.
  assert (Hpass : verification_passes h env token w decoded verified w3).
  { exists key, w1, w2. repeat split; assumption. }
  destruct (authenticateWithError_passes h env _ _ _ _ _ _ Hparts Hpass) as (c & Hrun).
  assert (Hfalse : run h (authenticateWithError env (VStr authHeader)) w
                   = (Done (VBool false), w3, c)).
  { rewrite Hrun.
    destruct (truthy (prop decoded "identity_proof_only")); [reflexivity|].
    destruct (strict_neq_string (prop decoded "aud") (bot_urn (botId env)));
      [reflexivity|].
    destruct Hwhy as [Hp|[Ha|[Hhook Hrefused]]]; try discriminate.
    unfold hook_answers in Hanswer. rewrite Hhook, Hrefused in Hanswer.
    injection Hanswer as <-. reflexivity. }
  rewrite (refreshToken_signs_returned_value h env _ _ _ _ _ _ _ _ _
             Hon Hfalse Hsecret Hsign), Hfalse.
  repeat split. unfold calls. cbn [snd].
  apply in_or_app. right. right. left. reflexivity.
Qed.

Lemma refresh_signs_false_principal_witness :
  (outcome (run Reference.answer
              (authenticateWithError Reference.paired_env (VStr "Bearer RS256.session"))
              Faults.refusing_world) = Done (VBool false) /\
   outcome (run Reference.answer
              (refreshToken Reference.paired_env (VStr "Bearer RS256.session"))
              Faults.refusing_world) = Done (Success (VStr "HS256.jwt5"))) /\
  (outcome (run Reference.answer
              (authenticateWithError Reference.paired_env (VStr "Bearer RS256.other"))
              Reference.paired_world) = Done (VBool false) /\
   outcome (run Reference.answer
              (refreshToken Reference.paired_env (VStr "Bearer RS256.other"))
              Reference.paired_world) = Done (Success (VStr "HS256.jwt5"))) /\
  (outcome (run Reference.answer
              (authenticateWithError Reference.paired_env (VStr "Bearer RS256.proof"))
              Reference.paired_world) = Done (VBool false) /\
   outcome (run Reference.answer
              (refreshToken Reference.paired_env (VStr "Bearer RS256.proof"))
              Reference.paired_world) = Done (Success (VStr "HS256.jwt5"))).
Proof.
  pose proof (refresh_signs_false_principal
                Reference.paired_env Reference.World Reference.answer
                Faults.refusing_world "Bearer RS256.session" (VStr "RS256.session")
                (VStr "cert") Faults.refusing_world
                (VObj (Reference.cloud_claims [])) Faults.refusing_world
                (VBool false) Faults.refusing_world
                (VStr "s3cr3t") Faults.refusing_world
                (VStr "HS256.jwt5") _
                eq_refl eq_refl eq_refl eq_refl eq_refl
                (or_intror (or_intror (conj eq_refl eq_refl)))
                eq_refl eq_refl eq_refl) as Hhook.
  pose proof (refresh_signs_false_principal
                Reference.paired_env Reference.World Reference.answer
                Reference.paired_world "Bearer RS256.other" (VStr "RS256.other")
                (VStr "cert") Reference.paired_world
                (VObj [("user", VStr "alice"); ("aud", VStr "urn:bot/b2");
                       ("exp", VNum "5000")]) Reference.paired_world
                (VBool true) Reference.paired_world
                (VStr "s3cr3t") Reference.paired_world
                (VStr "HS256.jwt5") _
                eq_refl eq_refl eq_refl eq_refl eq_refl
                (or_intror (or_introl eq_refl))
                eq_refl eq_refl eq_refl) as Haudience.
  pose proof (refresh_signs_false_principal
                Reference.paired_env Reference.World Reference.answer
                Reference.paired_world "Bearer RS256.proof" (VStr "RS256.proof")
                (VStr "cert") Reference.paired_world
                (VObj (Reference.cloud_claims [("identity_proof_only", VBool true)]))
                Reference.paired_world
                (VBool true) Reference.paired_world
                (VStr "s3cr3t") Reference.paired_world
                (VStr "HS256.jwt5") _
                eq_refl eq_refl eq_refl eq_refl eq_refl
                (or_introl eq_refl)
                eq_refl eq_refl eq_refl) as Hproof.
  exact (conj (conj (proj1 Hhook) (proj1 (proj2 Hhook)))
              (conj (conj (proj1 Haudience) (proj1 (proj2 Haudience)))
                    (conj (proj1 Hproof) (proj1 (proj2 Hproof))))).
Defined.

(** ** What an accepted token must look like *)

Section AcceptanceFacts.

Context {W : Type} (h : handler W) (env : Env).

Lemma authenticateWithError_nullish_claims (authHeader : string) (token : value)
  (w : W) (secret : value) (w1 : W) (decoded : value) (w2 : W)
  (verified : value) (w3 : W) :
  header_parts authHeader = (VStr "Bearer", token) ->
  h (material_event env) w = (Done secret, w1) ->
  h (JwtVerify token secret [mode_algorithm env]) w1 = (Done decoded, w2) ->
  hook_answers h env decoded w2 verified w3 ->
  nullish decoded = true ->
  outcome (run h (authenticateWithError env (VStr authHeader)) w)
    = Thrown (mkError TOKEN_INVALID).
Proof.
  intros Hparts Hm Hv Hanswer Hnull.
  destruct (run_verify_user h env _ _ _ _ Hanswer) as (hc & Hhook).
  rewrite authenticateWithError_string, Hparts.
  cbn [strict_neq_string String.eqb Ascii.eqb Bool.eqb negb].
  rewrite run_try_catch, run_bind, run_verification_material, Hm. cbn [fst snd].
  rewrite run_bind, run_call, Hv. cbn [fst snd].
  rewrite run_bind, Hhook.
  unfold get_prop. rewrite Hnull. reflexivity.
Qed.

(** [authenticate] yields a principal only for a token that verified and
    whose audience is the URN built from the captured [botId]. *)
Lemma authenticate_accepts_only_bot_audience (authHeader : string) (w : W)
  (principal : value) :
  outcome (run h (authenticate env (VStr authHeader)) w) = Done principal ->
  truthy principal = true ->
  exists token secret w1 decoded w2,
    header_parts authHeader = (VStr "Bearer", token) /\
    h (material_event env) w = (Done secret, w1) /\
    h (JwtVerify token secret [mode_algorithm env]) w1 = (Done decoded, w2) /\
    truthy (prop decoded "identity_proof_only") = false /\
    prop decoded "aud" = VStr (bot_urn (botId env)).
Proof.
  rewrite run_authenticate. intros Hout Htruthy.
  assert (Hstrict : outcome (run h (authenticateWithError env (VStr authHeader)) w)
                    = Done principal).
  { destruct (run h (authenticateWithError env (VStr authHeader)) w) as [[[v|err] w1] c];
      cbn in Hout |- *; injection Hout as <-; [reflexivity|discriminate]. }
  clear Hout.
  destruct (header_parts authHeader) as [scheme token] eqn:Hparts.
  destruct (strict_neq_string scheme "Bearer") eqn:Hscheme.
  { rewrite authenticateWithError_string, Hparts, Hscheme in Hstrict.
    discriminate. }
  apply strict_neq_string_false in Hscheme. subst scheme.
  destruct (verification_cases h env token w)
    as [(err & Hthrows)|(secret & w1 & decoded & w2 & verified & w3 & Hm & Hv & Hhook)].
  { rewrite (authenticateWithError_throws h env _ _ _ _ Hparts Hthrows) in Hstrict.
    discriminate. }
  destruct (nullish decoded) eqn:Hnull.
  { rewrite (authenticateWithError_nullish_claims _ _ _ _ _ _ _ _ _
               Hparts Hm Hv Hhook Hnull) in Hstrict.
    discriminate. }
  destruct (authenticateWithError_passes h env authHeader token w decoded verified w3
              Hparts) as (c & Hrun).
  { exists secret, w1, w2. repeat split; assumption. }
  rewrite Hrun in Hstrict. unfold outcome in Hstrict. cbn [fst] in Hstrict.
  exists token, secret, w1, decoded, w2.
  destruct (truthy (prop decoded "identity_proof_only")).
  { injection Hstrict as <-. discriminate. }
  destruct (strict_neq_string (prop decoded "aud") (bot_urn (botId env))) eqn:Haud.
  { injection Hstrict as <-. discriminate. }
  apply strict_neq_string_false in Haud. repeat split; assumption.
Qed.

(** An unpaired helper has captured no bot identifier. *)
Lemma construct_unpaired_has_no_bot (securityConfig : SecurityConfig)
  (verifyUserDefined : bool) (w : W) (built : Env) :
  outcome (run h (construct securityConfig verifyUserDefined) w) = Done built ->
  truthy (isCloudPaired built) = false ->
  botId built = VUndefined.
Proof.
  unfold construct.
  destruct (truthy (cfg_useCloud securityConfig)) eqn:Hcloud; cbn.
  - destruct (h IsPaired w) as [[paired|err] w1]; cbn; [|discriminate].
    destruct (truthy paired) eqn:Hpaired; cbn.
    + destruct (h GetPairingInfo w1) as [[info|err] w2]; cbn; [|discriminate].
      intros [= <-]. cbn. congruence.
    + intros [= <-]. cbn. unfold js_or. rewrite Hpaired. reflexivity.
  - rewrite Hcloud. cbn. intros [= <-]. cbn. unfold js_or. rewrite Hcloud.
    reflexivity.
Qed.

End AcceptanceFacts.

(** ** Where the code leaves its contract *)

(** C1.  The example of section 8, run on the code.  The helper is built
    unpaired, so its [botId] is [undefined].  [login] succeeds and returns
    a token that the library verifies with the secret and HS256, yielding
    the claims [{user: "admin", iat, exp, iss}].  [authenticate] on
    "Bearer <token>" nevertheless returns [false], not "admin": the
    claims have no [aud], and [undefined !== "urn:bot/undefined"]. *)
Theorem login_token_is_not_accepted :
  outcome (run Reference.answer (construct Reference.local_config false)
               Reference.local_world) = Done Reference.local_env /\
  let after := run Reference.answer
                   (login Reference.local_env (VStr "admin") (VStr "pw") (VStr "1.2.3.4"))
                   Reference.local_world in
  outcome after = Done (Success (VStr "HS256.jwt0")) /\
  Reference.jwt_verify (VStr "HS256.jwt0") (VStr "s3cr3t") ["HS256"] (final after)
    = Done (VObj [("user", VStr "admin"); ("iat", VNum "1000");
                  ("exp", VNum "4600"); ("iss", VStr "bot.root")]) /\
  bot_urn (botId Reference.local_env) = "urn:bot/undefined" /\
  outcome (run Reference.answer
             (authenticate Reference.local_env (VStr "Bearer HS256.jwt0")) (final after))
    = Done (VBool false) /\
  outcome (run Reference.answer
             (authenticateWithError Reference.local_env (VStr "Bearer HS256.jwt0")) (final after))
    = Done (VBool false).
Proof.
  cbv zeta. repeat split; vm_compute; reflexivity.
Qed.

(** C2.  A header the code can receive while paired with login enabled:
    "Bearer <proof-only token of the control plane>".
    [authenticateWithError] rejects the token by returning [false], and
    [refreshToken] answers [{success: true}] with a token it has just
    signed for the user [false]. *)
Theorem refresh_succeeds_on_rejected_token :
  truthy (loginEnabled Reference.paired_env) = true /\
  outcome (run Reference.answer
             (authenticateWithError Reference.paired_env (VStr "Bearer RS256.proof"))
             Reference.paired_world) = Done (VBool false) /\
  let after := run Reference.answer
                   (refreshToken Reference.paired_env (VStr "Bearer RS256.proof"))
                   Reference.paired_world in
  outcome after = Done (Success (VStr "HS256.jwt5")) /\
  option_map Reference.m_claims
             (Reference.find_token "HS256.jwt5" (Reference.minted (final after)))
    = Some [("user", VBool false); ("iat", VNum "1000");
            ("exp", VNum "4600"); ("iss", VStr "bot.root")].
Proof.
  cbv zeta. repeat split; vm_compute; reflexivity.
Qed.

(** * Further properties of the helper *)

(** ** [split] and the header *)

Section SplitRoundTrip.

Variable sep : ascii.

Lemma count_char_app (a b : string) :
  count_char sep (a ++ b) = (count_char sep a + count_char sep b)%nat.
Proof.
  induction a as [|c a IH]; cbn; [reflexivity|]. rewrite IH. lia.
Qed.

(** X1.  [split] loses nothing: there is one part more than separators,
    no part contains the separator, and joining the parts with the
    separator gives the string back. *)
Theorem split_join_round_trip (s : string) :
  join sep (split sep s) = s /\
  List.length (split sep s) = S (count_char sep s) /\
  Forall (fun part => count_char sep part = 0%nat) (split sep s).
Proof.
  induction s as [|c s (IHjoin & IHlen & IHparts)]; cbn.
  - repeat split. repeat constructor.
  - destruct (Ascii.eqb c sep) eqn:Hc.
    + apply Ascii.eqb_eq in Hc. subst c.
      destruct (split sep s) as [|part parts] eqn:Hs; [discriminate|].
      cbn in *. rewrite IHjoin, IHlen. repeat split.
      constructor; [reflexivity|assumption].
    + destruct (split sep s) as [|part parts] eqn:Hs; [discriminate|].
      cbn [List.length plus] in *. split; [|split; [exact IHlen|]].
      * rewrite <- IHjoin. cbn. destruct parts; reflexivity.
      * inversion IHparts as [|? ? Hpart Hrest]; subst.
        constructor; [|assumption]. cbn. rewrite Hc, Hpart. reflexivity.
Qed.

End SplitRoundTrip.

(** X2.  A header without a space is all scheme: the token is
    [undefined].  With login disabled [refreshToken] then answers
    [{success: true, token: undefined}] for the bare header "Bearer", and
    the scheme failure quoting the whole header for any other. *)
Theorem header_without_space_has_no_token (env : Env) (authHeader : string) :
  count_char " " authHeader = 0%nat ->
  header_parts authHeader = (VStr authHeader, VUndefined) /\
  (truthy (loginEnabled env) = false ->
   refreshToken env (VStr authHeader) =
   if String.eqb authHeader "Bearer" then Ret (Success VUndefined)
   else Ret (Failure (VStr ("Wrong scheme " ++ authHeader ++ ", expected Bearer")))).
Proof.
  intros Hnone.
  assert (Hparts : header_parts authHeader = (VStr authHeader, VUndefined)).
  { unfold header_parts. rewrite (split_without_sep _ _ Hnone). reflexivity. }
  split; [exact Hparts|]. intros Hoff.
  rewrite (refreshToken_disabled env _ Hoff), Hparts. cbn.
  destruct (String.eqb authHeader "Bearer"); reflexivity.
Qed.

Lemma header_without_space_has_no_token_witness :
  header_parts "Bearer" = (VStr "Bearer", VUndefined) /\
  (truthy (loginEnabled Reference.open_env) = false ->
   refreshToken Reference.open_env (VStr "Bearer") =
   if String.eqb "Bearer" "Bearer" then Ret (Success VUndefined)
   else Ret (Failure (VStr ("Wrong scheme " ++ "Bearer" ++ ", expected Bearer")))).
Proof.
  apply (header_without_space_has_no_token Reference.open_env "Bearer").
  reflexivity.
Defined.

(** ** Construction *)

(** X3.  Without [useCloud] the constructor never touches the cloud
    collaborator: it makes no call, the helper counts as unpaired (its
    [isCloudPaired] is the falsy [useCloud] itself) and has no [botId]. *)
Theorem construct_without_cloud (W : Type) (h : handler W) (w : W)
  (securityConfig : SecurityConfig) (verifyUserDefined : bool) :
  truthy (cfg_useCloud securityConfig) = false ->
  exists built,
    run h (construct securityConfig verifyUserDefined) w = (Done built, w, []) /\
    isCloudPaired built = cfg_useCloud securityConfig /\
    botId built = VUndefined /\
    tokenExpiry built = cfg_tokenExpiry securityConfig /\
    loginEnabled built = cfg_enabled securityConfig.
Proof.
  intros Hoff. unfold construct. rewrite Hoff. cbn. rewrite Hoff. cbn.
  eexists. split; [reflexivity|]. cbn. unfold js_or. rewrite Hoff.
  repeat split.
Qed.

Lemma construct_without_cloud_witness :
  exists built,
    run Reference.answer (construct Reference.local_config false)
        Reference.paired_world = (Done built, Reference.paired_world, []) /\
    isCloudPaired built = cfg_useCloud Reference.local_config /\
    botId built = VUndefined /\
    tokenExpiry built = cfg_tokenExpiry Reference.local_config /\
    loginEnabled built = cfg_enabled Reference.local_config.
Proof.
  apply (construct_without_cloud _ Reference.answer Reference.paired_world
           Reference.local_config false).
  reflexivity.
Defined.

(** X4.  With [useCloud], the helper is paired exactly when
    [cloud.isPaired()] answers a truthy value.  If it does, the pairing
    info is fetched once and its [botId] is captured; if it does not, the
    pairing info is never asked for and there is no [botId]. *)
Theorem construct_with_cloud (W : Type) (h : handler W) (w : W)
  (securityConfig : SecurityConfig) (verifyUserDefined : bool)
  (paired : value) (w1 : W) :
  truthy (cfg_useCloud securityConfig) = true ->
  h IsPaired w = (Done paired, w1) ->
  (truthy paired = false ->
   exists built,
     run h (construct securityConfig verifyUserDefined) w
       = (Done built, w1, [IsPaired]) /\
     isCloudPaired built = paired /\ botId built = VUndefined) /\
  (truthy paired = true ->
   forall info w2, h GetPairingInfo w1 = (Done info, w2) -> truthy info = true ->
   exists built,
     run h (construct securityConfig verifyUserDefined) w
       = (Done built, w2, [IsPaired; GetPairingInfo]) /\
     isCloudPaired built = paired /\ botId built = prop info "botId").
Proof.
  intros Hcloud Hpaired. unfold construct. rewrite Hcloud. cbn. rewrite Hpaired.
  cbn. split; intros Hp; rewrite Hp.
  - cbn. eexists. split; [reflexivity|]. cbn. unfold js_or. rewrite Hp.
    split; reflexivity.
  - intros info w2 Hinfo Htruthy. cbn. rewrite Hinfo. cbn.
    eexists. split; [reflexivity|]. cbn. unfold js_or. rewrite Htruthy.
    split; reflexivity.
Qed.

Lemma construct_with_cloud_witness :
  exists built,
    run Reference.answer (construct Reference.paired_config true)
        Reference.paired_world
      = (Done built, Reference.paired_world, [IsPaired; GetPairingInfo]) /\
    isCloudPaired built = VBool true /\
    botId built = prop (VObj [("botId", VStr "b1")]) "botId".
Proof.
  exact (proj2 (construct_with_cloud _ Reference.answer Reference.paired_world
                  Reference.paired_config true (VBool true) Reference.paired_world
                  eq_refl eq_refl)
               eq_refl (VObj [("botId", VStr "b1")]) Reference.paired_world
               eq_refl eq_refl).
Defined.

(** ** Login *)

(** X5.  When the throttle gate answers a falsy value, [login] fails with
    "Too many login attempts. Try again later." and stops there: the
    credential check is never called and nothing is signed. *)
Theorem login_throttled_stops_early (env : Env) (W : Type) (h : handler W) (w : W)
  (user password ip canAttempt : value) (w1 : W) :
  truthy (isCloudPaired env) = false ->
  h (Attempt (default_ip ip)) w = (Done canAttempt, w1) ->
  truthy canAttempt = false ->
  run h (login env user password ip) w
    = (Done (Failure (VStr TOO_MANY_ATTEMPTS)), w1, [Attempt (default_ip ip)]).
Proof.
  intros Hunpaired Hattempt Hno. unfold login. rewrite Hunpaired. cbn.
  rewrite Hattempt. cbn. rewrite Hno. reflexivity.
Qed.

Lemma login_throttled_stops_early_witness :
  run Reference.answer
      (login Reference.local_env (VStr "admin") (VStr "pw") VUndefined)
      Faults.throttled_world
    = (Done (Failure (VStr TOO_MANY_ATTEMPTS)), Faults.throttled_world,
       [Attempt (VStr "all")]).
Proof.
  apply (login_throttled_stops_early Reference.local_env _ Reference.answer
           Faults.throttled_world (VStr "admin") (VStr "pw") VUndefined
           (VBool false));
    reflexivity.
Defined.

(** X6.  A successful [login] makes exactly four calls, in this order:
    the throttle gate, the credential check, the secret fetch and
    [jwt.sign] on [{user: <principal>}] with that secret, HS256, issuer
    "bot.root" and the configured expiry; it returns the signed token.  A
    missing [ip] is passed on as "all". *)
Theorem login_success_calls (env : Env) (W : Type) (h : handler W) (w : W)
  (user password ip canAttempt loginUser secret token : value) (w1 w2 w3 w4 : W) :
  truthy (isCloudPaired env) = false ->
  h (Attempt (default_ip ip)) w = (Done canAttempt, w1) ->
  truthy canAttempt = true ->
  h (CheckCredentials user password (default_ip ip)) w1 = (Done loginUser, w2) ->
  truthy loginUser = true ->
  h GetSecret w2 = (Done secret, w3) ->
  h (JwtSign (VObj [("user", loginUser)]) secret (sign_options env)) w3
    = (Done token, w4) ->
  run h (login env user password ip) w
    = (Done (Success token), w4,
       [Attempt (default_ip ip);
        CheckCredentials user password (default_ip ip);
        GetSecret;
        JwtSign (VObj [("user", loginUser)]) secret (sign_options env)]).
Proof.
  intros Hunpaired Hattempt Hcan Hcheck Hok Hsecret Hsign.
  unfold login. rewrite Hunpaired. cbn.
  rewrite Hattempt. cbn. rewrite Hcan. cbn.
  rewrite Hcheck. cbn. rewrite Hok. cbn.
  rewrite Hsecret. cbn.
  change {| issuer := "bot.root"; expiresIn := tokenExpiry env; algorithm := "HS256" |}
    with (sign_options env).
  rewrite Hsign. reflexivity.
Qed.

Lemma login_success_calls_witness :
  outcome (run Reference.answer
             (login Reference.local_env (VStr "admin") (VStr "pw") VUndefined)
             Reference.local_world)
    = Done (Success (VStr "HS256.jwt0")) /\
  calls (run Reference.answer
             (login Reference.local_env (VStr "admin") (VStr "pw") VUndefined)
             Reference.local_world)
    = [Attempt (VStr "all");
       CheckCredentials (VStr "admin") (VStr "pw") (VStr "all");
       GetSecret;
       JwtSign (VObj [("user", VStr "admin")]) (VStr "s3cr3t")
               (sign_options Reference.local_env)].
Proof.
  pose proof (login_success_calls Reference.local_env _ Reference.answer
                Reference.local_world (VStr "admin") (VStr "pw") VUndefined
                (VBool true) (VStr "admin") (VStr "s3cr3t") (VStr "HS256.jwt0")
                _ _ _ _ eq_refl eq_refl eq_refl eq_refl eq_refl eq_refl eq_refl) as H.
  rewrite H. split; reflexivity.
Defined.

(** X7.  [login] has no error handler: when the throttle gate or the
    credential check throws, [login] throws the same value (the promise is
    rejected) instead of returning [{success: false}]. *)
Theorem login_propagates_collaborator_throw (env : Env) (W : Type) (h : handler W)
  (w : W) (user password ip err : value) :
  truthy (isCloudPaired env) = false ->
  login_collaborator_throws h w user password (default_ip ip) err ->
  outcome (run h (login env user password ip) w) = Thrown err /\
  ~ In GetSecret (calls (run h (login env user password ip) w)).
Proof.
  intros Hunpaired [(w1 & Hattempt)|(canAttempt & w1 & w2 & Hattempt & Hcan & Hcheck)];
    unfold login; rewrite Hunpaired; cbn; rewrite Hattempt; cbn.
  - split; [reflexivity|]. intros [H|[]]. discriminate.
  - rewrite Hcan. cbn. rewrite Hcheck. cbn.
    split; [reflexivity|]. intros [H|[H|[]]]; discriminate.
Qed.

Lemma login_propagates_collaborator_throw_witness :
  outcome (run (Faults.failing Faults.is_attempt (mkError "store offline"))
             (login Reference.local_env (VStr "admin") (VStr "pw") (VStr "1.2.3.4"))
             Reference.local_world)
    = Thrown (mkError "store offline") /\
  ~ In GetSecret
       (calls (run (Faults.failing Faults.is_attempt (mkError "store offline"))
                 (login Reference.local_env (VStr "admin") (VStr "pw") (VStr "1.2.3.4"))
                 Reference.local_world)).
Proof.
  apply (login_propagates_collaborator_throw Reference.local_env).
  - reflexivity.
  - left. exists Reference.local_world. reflexivity.
Defined.

(** X8.  Whatever the inputs and the environment, a failure that [login]
    returns carries one of three fixed reasons (root login disabled, too
    many attempts, bad username / password): nothing of the collaborators'
    answers reaches the reason. *)
Theorem login_failure_reasons (env : Env) (W : Type) (h : handler W) (w : W)
  (user password ip reason : value) :
  outcome (run h (login env user password ip) w) = Done (Failure reason) ->
  reason = VStr ROOT_DISABLED \/ reason = VStr TOO_MANY_ATTEMPTS \/
  reason = VStr BAD_CREDENTIALS.
Proof.
  unfold login, buildToken.
  destruct (truthy (isCloudPaired env)); cbn.
  { intros [= <-]. left. reflexivity. }
  destruct (h (Attempt (default_ip ip)) w) as [[canAttempt|err] w1]; cbn;
    [|discriminate].
  destruct (truthy canAttempt); cbn.
  2:{ intros [= <-]. right. left. reflexivity. }
  destruct (h (CheckCredentials user password (default_ip ip)) w1)
    as [[loginUser|err] w2]; cbn; [|discriminate].
  destruct (truthy loginUser); cbn.
  2:{ intros [= <-]. right. right. reflexivity. }
  destruct (h GetSecret w2) as [[secret|err] w3]; cbn; [|discriminate].
  destruct (h (JwtSign _ secret _) w3) as [[token|err] w4]; cbn; discriminate.
Qed.

Lemma login_failure_reasons_witness :
  VStr BAD_CREDENTIALS = VStr ROOT_DISABLED \/
  VStr BAD_CREDENTIALS = VStr TOO_MANY_ATTEMPTS \/
  VStr BAD_CREDENTIALS = VStr BAD_CREDENTIALS.
Proof.
  apply (login_failure_reasons Reference.local_env _ Reference.answer
           Reference.local_world (VStr "admin") (VStr "guess") (VStr "1.2.3.4")).
  reflexivity.
Defined.

(** ** Verification *)

(** X9.  The scheme is checked before anything else.  When the first
    part of the header is not exactly "Bearer" (the test is case
    sensitive), [authenticateWithError] throws "Wrong scheme <scheme>,
    expected Bearer", [authenticate] returns [false] and [refreshToken],
    with login enabled or not, returns the failure with that reason; none
    of them calls a collaborator or the token library. *)
Theorem wrong_scheme_fails_before_any_call (env : Env) (W : Type) (h : handler W)
  (w : W) (authHeader scheme : string) :
  nth_error (split " " authHeader) 0 = Some scheme ->
  scheme <> "Bearer" ->
  run h (authenticateWithError env (VStr authHeader)) w
    = (Thrown (mkError ("Wrong scheme " ++ scheme ++ ", expected Bearer")), w, []) /\
  run h (authenticate env (VStr authHeader)) w = (Done (VBool false), w, []) /\
  run h (refreshToken env (VStr authHeader)) w
    = (Done (Failure (VStr ("Wrong scheme " ++ scheme ++ ", expected Bearer"))), w, []).
Proof.
  intros Hnth Hscheme.
  assert (Hfst : fst (header_parts authHeader) = VStr scheme).
  { unfold header_parts, element. cbn [fst]. rewrite Hnth. reflexivity. }
  assert (Hstrict : run h (authenticateWithError env (VStr authHeader)) w
            = (Thrown (mkError ("Wrong scheme " ++ scheme ++ ", expected Bearer")), w, [])).
  { rewrite authenticateWithError_string.
    destruct (header_parts authHeader) as [s token]. cbn [fst] in Hfst. subst s.
    rewrite (strict_neq_string_true _ _ Hscheme). reflexivity. }
  split; [exact Hstrict|]. split.
  - rewrite run_authenticate, Hstrict. reflexivity.
  - destruct (truthy (loginEnabled env)) eqn:Hon.
    + unfold refreshToken. rewrite Hon. cbn [negb].
      rewrite run_try_catch, run_bind, Hstrict. reflexivity.
    + rewrite (refreshToken_disabled env _ Hon), Hfst,
        (strict_neq_string_true _ _ Hscheme).
      reflexivity.
Qed.

Lemma wrong_scheme_fails_before_any_call_witness :
  run Reference.answer
      (authenticateWithError Reference.paired_env (VStr "bearer RS256.session"))
      Reference.paired_world
    = (Thrown (mkError ("Wrong scheme " ++ "bearer" ++ ", expected Bearer")),
       Reference.paired_world, []) /\
  run Reference.answer
      (authenticate Reference.paired_env (VStr "bearer RS256.session"))
      Reference.paired_world
    = (Done (VBool false), Reference.paired_world, []) /\
  run Reference.answer
      (refreshToken Reference.paired_env (VStr "bearer RS256.session"))
      Reference.paired_world
    = (Done (Failure (VStr ("Wrong scheme " ++ "bearer" ++ ", expected Bearer"))),
       Reference.paired_world, []).
Proof.
  apply (wrong_scheme_fails_before_any_call Reference.paired_env).
  - reflexivity.
  - discriminate.
Defined.

(** X10.  [authenticateWithError] throws one of three errors only: the
    TypeError of the split when the header is not a string, the scheme
    error, or "The token is invalid or expired".  Whatever the
    collaborators or the token library threw (its value, its message) is
    replaced and never reaches the caller. *)
Theorem authenticateWithError_masks_errors (env : Env) (W : Type) (h : handler W)
  (w : W) (authHeader err : value) :
  outcome (run h (authenticateWithError env authHeader) w) = Thrown err ->
  (exists s,
      authHeader = VStr s /\
      (err = mkError (wrong_scheme (fst (header_parts s))) \/
       err = mkError TOKEN_INVALID)) \/
  ((forall s, authHeader <> VStr s) /\ err = split_type_error authHeader).
Proof.
  destruct authHeader as [| | | |s|];
    try (cbn; intros [= <-]; right; split; [discriminate|reflexivity]).
  intros Hthrown. left. exists s. split; [reflexivity|].
  revert Hthrown. rewrite authenticateWithError_string.
  destruct (header_parts s) as [scheme token]. cbn [fst].
  destruct (strict_neq_string scheme "Bearer").
  - cbn. intros [= <-]. left. reflexivity.
  - rewrite run_try_catch.
    match goal with
    | |- context [run h ?p w] => destruct (run h p w) as [[[v|inner] w1] c]
    end; cbn.
    + discriminate.
    + intros [= <-]. right. reflexivity.
Qed.

Lemma authenticateWithError_masks_errors_witness :
  ((exists s,
       VStr "Bearer RS256.stale" = VStr s /\
       (mkError TOKEN_INVALID = mkError (wrong_scheme (fst (header_parts s))) \/
        mkError TOKEN_INVALID = mkError TOKEN_INVALID)) \/
   ((forall s, VStr "Bearer RS256.stale" <> VStr s) /\
    mkError TOKEN_INVALID = split_type_error (VStr "Bearer RS256.stale"))) /\
  ((exists s,
       VUndefined = VStr s /\
       (split_type_error VUndefined = mkError (wrong_scheme (fst (header_parts s))) \/
        split_type_error VUndefined = mkError TOKEN_INVALID)) \/
   ((forall s, VUndefined <> VStr s) /\
    split_type_error VUndefined = split_type_error VUndefined)).
Proof.
  split.
  - apply (authenticateWithError_masks_errors Reference.paired_env _ Reference.answer
             Reference.paired_world (VStr "Bearer RS256.stale")).
    reflexivity.
  - apply (authenticateWithError_masks_errors Reference.paired_env _ Reference.answer
             Reference.paired_world VUndefined).
    reflexivity.
Defined.

Section VerificationCalls.

Context {W : Type} (h : handler W) (env : Env).

Ltac walk :=
  repeat (cbn;
          match goal with
          | |- context [h ?ev ?w] => destruct (h ev w) as [[?|?] ?]
          | |- context [if ?b then _ else _] => destruct b eqn:?
          end).

(** X11.  Verification reads and never writes: in every environment
    [authenticateWithError], [authenticate] and [getUserIdentity] make at
    most three calls, each of them the key fetch of the mode (the
    certificate when paired, the secret when not, never the other one),
    [jwt.verify], or the [verifyUser] hook when it is defined.  They never
    sign, never consult the throttle gate and never check credentials. *)
Theorem verification_only_reads (authHeader token : value) (w : W) :
  (Forall (verification_call env) (calls (run h (authenticateWithError env authHeader) w)) /\
   (List.length (calls (run h (authenticateWithError env authHeader) w)) <= 3)%nat) /\
  (Forall (verification_call env) (calls (run h (authenticate env authHeader) w)) /\
   (List.length (calls (run h (authenticate env authHeader) w)) <= 3)%nat) /\
  (Forall (verification_call env) (calls (run h (getUserIdentity env token) w)) /\
   (List.length (calls (run h (getUserIdentity env token) w)) <= 3)%nat).
Proof.
  assert (Hstrict :
            Forall (verification_call env)
                   (calls (run h (authenticateWithError env authHeader) w)) /\
            (List.length (calls (run h (authenticateWithError env authHeader) w)) <= 3)%nat).
  { destruct authHeader as [| | | |s|];
      try (cbn; split; [constructor|lia]).
    rewrite authenticateWithError_string.
    unfold verification_material, verify_user, verified_and_user, get_prop, calls.
    destruct (header_parts s) as [scheme tok].
    destruct (truthy (isCloudPaired env)) eqn:Hpaired,
             (hasVerifyUser env) eqn:Hhook;
      walk; (split; [repeat constructor; cbn; assumption | cbn; lia]). }
  split; [exact Hstrict|]. split.
  - rewrite run_authenticate.
    destruct (run h (authenticateWithError env authHeader) w) as [[out w1] c].
    exact Hstrict.
  - unfold getUserIdentity, verification_material, verify_user,
      verified_and_user, get_prop, calls.
    destruct (truthy (isCloudPaired env)) eqn:Hpaired,
             (hasVerifyUser env) eqn:Hhook;
      walk; (split; [repeat constructor; cbn; assumption | cbn; lia]).
Qed.

End VerificationCalls.

(** X12.  Soundness of [authenticate]: it returns a truthy value only
    for a string header "Bearer <token>" such that the collaborator handed
    out the key of the mode, [jwt.verify] accepted the token with that key
    and the one algorithm of the mode, the claims are not proof-only and
    carry the audience "urn:bot/<botId>", and the [verifyUser] hook, when
    the collaborator defines one, was called on the claims and answered a
    truthy value; the value returned is the [user] claim. *)
Theorem authenticate_sound (env : Env) (W : Type) (h : handler W) (w : W)
  (authHeader principal : value) :
  outcome (run h (authenticate env authHeader) w) = Done principal ->
  truthy principal = true ->
  exists header token secret w1 decoded w2,
    authHeader = VStr header /\
    header_parts header = (VStr "Bearer", token) /\
    h (material_event env) w = (Done secret, w1) /\
    h (JwtVerify token secret [mode_algorithm env]) w1 = (Done decoded, w2) /\
    truthy (prop decoded "identity_proof_only") = false /\
    prop decoded "aud" = VStr (bot_urn (botId env)) /\
    (hasVerifyUser env = true ->
     exists verified w3,
       h (VerifyUser decoded) w2 = (Done verified, w3) /\ truthy verified = true) /\
    principal = prop decoded "user".
Proof.
  rewrite run_authenticate. intros Hout Htruthy.
  assert (Hstrict : outcome (run h (authenticateWithError env authHeader) w)
                    = Done principal).
  { destruct (run h (authenticateWithError env authHeader) w) as [[[v|err] w1] c];
      cbn in Hout |- *; injection Hout as <-; [reflexivity|discriminate]. }
  clear Hout.
  destruct authHeader as [| | | |header|]; try discriminate.
  destruct (header_parts header) as [scheme token] eqn:Hparts.
  destruct (strict_neq_string scheme "Bearer") eqn:Hscheme.
  { rewrite authenticateWithError_string, Hparts, Hscheme in Hstrict.
    discriminate. }
  apply strict_neq_string_false in Hscheme. subst scheme.
  destruct (verification_cases h env token w)
    as [(err & Hthrows)|(secret & w1 & decoded & w2 & verified & w3 & Hm & Hv & Hhook)].
  { rewrite (authenticateWithError_throws h env _ _ _ _ Hparts Hthrows) in Hstrict.
    discriminate. }
  destruct (nullish decoded) eqn:Hnull.
  { rewrite (authenticateWithError_nullish_claims h env _ _ _ _ _ _ _ _ _
               Hparts Hm Hv Hhook Hnull) in Hstrict.
    discriminate. }
  assert (Hpass : verification_passes h env token w decoded verified w3).
  { exists secret, w1, w2. repeat split; assumption. }
  destruct (authenticateWithError_passes h env header token w decoded verified w3
              Hparts Hpass) as (c & Hrun).
  rewrite Hrun in Hstrict. unfold outcome in Hstrict. cbn [fst] in Hstrict.
  exists header, token, secret, w1, decoded, w2.
  destruct (truthy (prop decoded "identity_proof_only")).
  { injection Hstrict as <-. discriminate. }
  destruct (strict_neq_string (prop decoded "aud") (bot_urn (botId env))) eqn:Haud.
  { injection Hstrict as <-. discriminate. }
  apply strict_neq_string_false in Haud.
  injection Hstrict as <-. unfold js_and in Htruthy |- *.
  destruct (truthy verified) eqn:Hverified.
  - repeat split; try assumption.
    intros Hdefined. unfold hook_answers in Hhook. rewrite Hdefined in Hhook.
    exists verified, w3. split; assumption.
  - rewrite Hverified in Htruthy. discriminate.
Qed.

Lemma authenticate_sound_witness :
  exists header token secret w1 decoded w2,
    VStr "Bearer RS256.session" = VStr header /\
    header_parts header = (VStr "Bearer", token) /\
    Reference.answer (material_event Reference.paired_env) Reference.paired_world
      = (Done secret, w1) /\
    Reference.answer (JwtVerify token secret [mode_algorithm Reference.paired_env]) w1
      = (Done decoded, w2) /\
    truthy (prop decoded "identity_proof_only") = false /\
    prop decoded "aud" = VStr (bot_urn (botId Reference.paired_env)) /\
    (hasVerifyUser Reference.paired_env = true ->
     exists verified w3,
       Reference.answer (VerifyUser decoded) w2 = (Done verified, w3) /\
       truthy verified = true) /\
    VStr "alice" = prop decoded "user".
Proof.
  apply (authenticate_sound Reference.paired_env _ Reference.answer
           Reference.paired_world (VStr "Bearer RS256.session") (VStr "alice"));
    reflexivity.
Defined.

(** X13.  On a token that is not proof-only, [authenticateWithError] on
    "Bearer <token>" and [getUserIdentity] on the token agree whenever the
    verification steps go through: both return [false] on an audience
    mismatch and otherwise [verified && decoded.user], that is the hook's
    own answer when it is falsy and else the [user] claim ([undefined]
    when the claims have none). *)
Theorem session_and_identity_agree (env : Env) (W : Type) (h : handler W) (w : W)
  (authHeader : string) (token decoded verified : value) (w3 : W) :
  header_parts authHeader = (VStr "Bearer", token) ->
  verification_passes h env token w decoded verified w3 ->
  truthy (prop decoded "identity_proof_only") = false ->
  outcome (run h (authenticateWithError env (VStr authHeader)) w)
    = outcome (run h (getUserIdentity env token) w) /\
  outcome (run h (getUserIdentity env token) w)
    = Done (if strict_neq_string (prop decoded "aud") (bot_urn (botId env))
            then VBool false
            else if truthy verified then prop decoded "user" else verified).
Proof.
  intros Hparts Hpass Hflag.
  destruct (authenticateWithError_passes h env _ _ _ _ _ _ Hparts Hpass) as (c & Hrun).
  rewrite Hrun, Hflag, (getUserIdentity_passes h env _ _ _ _ _ Hpass).
  unfold js_and.
  destruct (strict_neq_string (prop decoded "aud") (bot_urn (botId env)));
    split; reflexivity.
Qed.

Lemma session_and_identity_agree_witness :
  outcome (run Reference.answer
             (authenticateWithError Reference.paired_env (VStr "Bearer RS256.session"))
             Reference.paired_world)
    = outcome (run Reference.answer
                 (getUserIdentity Reference.paired_env (VStr "RS256.session"))
                 Reference.paired_world) /\
  outcome (run Reference.answer
             (getUserIdentity Reference.paired_env (VStr "RS256.session"))
             Reference.paired_world)
    = Done (if strict_neq_string (prop (VObj (Reference.cloud_claims [])) "aud")
                                 (bot_urn (botId Reference.paired_env))
            then VBool false
            else if truthy (VBool true)
                 then prop (VObj (Reference.cloud_claims [])) "user"
                 else VBool true).
Proof.
  apply (session_and_identity_agree Reference.paired_env _ Reference.answer
           Reference.paired_world "Bearer RS256.session" (VStr "RS256.session")
           (VObj (Reference.cloud_claims [])) (VBool true) Reference.paired_world).
  - reflexivity.
  - exists (VStr "cert"), Reference.paired_world, Reference.paired_world.
    repeat split; reflexivity.
  - reflexivity.
Defined.

(** ** Refresh with login enabled, continued *)

Section RefreshMore.

Context {W : Type} (h : handler W) (env : Env).

Lemma split_type_error_message (authHeader : value) :
  exists msg,
    split_type_error authHeader = TypeError msg /\ truthy (VStr msg) = true.
Proof.
  unfold split_type_error. destruct (nullish authHeader); eexists; split; reflexivity.
Qed.

(** What [authenticateWithError] throws is an error object that carries a
    non-empty message. *)
Lemma authenticateWithError_thrown_message (authHeader : value) (w : W)
  (err : value) :
  outcome (run h (authenticateWithError env authHeader) w) = Thrown err ->
  exists msg,
    prop err "message" = VStr msg /\ truthy (VStr msg) = true /\
    nullish err = false /\
    ((exists s, authHeader = VStr s /\
                (err = mkError (wrong_scheme (fst (header_parts s))) \/
                 err = mkError TOKEN_INVALID)) \/
     ((forall s, authHeader <> VStr s) /\ err = split_type_error authHeader)).
Proof.
  destruct authHeader as [| | | |s|].
  1-4, 6: (intros Hthrown; cbn in Hthrown; injection Hthrown as <-;
           eexists; split; [reflexivity|]; split; [reflexivity|];
           split; [reflexivity|]; right; split; [discriminate|reflexivity]).
  rewrite authenticateWithError_string. intros Hthrown.
  assert (Herr : err = mkError (wrong_scheme (fst (header_parts s))) \/
                 err = mkError TOKEN_INVALID).
  { revert Hthrown. destruct (header_parts s) as [scheme token]. cbn [fst].
    destruct (strict_neq_string scheme "Bearer").
    - cbn. intros [= <-]. left. reflexivity.
    - rewrite run_try_catch.
      match goal with
      | |- context [run h ?p w] => destruct (run h p w) as [[[v|inner] w1] c]
      end; cbn.
      + discriminate.
      + intros [= <-]. right. reflexivity. }
  assert (Hmsg : exists msg, err = mkError msg /\ truthy (VStr msg) = true).
  { destruct Herr as [-> | ->]; eexists; split; reflexivity. }
  destruct Hmsg as (msg & Hmk & Htruthy).
  exists msg. split; [rewrite Hmk; reflexivity|]. split; [exact Htruthy|].
  split; [rewrite Hmk; reflexivity|].
  left. exists s. split; [reflexivity|exact Herr].
Qed.

Lemma run_buildToken_throws (loginUser : value) (w : W) (err : value) :
  signing_throws h env loginUser w err ->
  outcome (run h (buildToken env loginUser) w) = Thrown err.
Proof.
  unfold buildToken.
  change {| issuer := "bot.root"; expiresIn := tokenExpiry env; algorithm := "HS256" |}
    with (sign_options env).
  intros [(w1 & Hs)|(secret & w1 & w2 & Hs & Hsign)]; cbn; rewrite Hs; cbn.
  - reflexivity.
  - rewrite Hsign. reflexivity.
Qed.

Lemma run_buildToken_cases (loginUser : value) (w : W) :
  (exists err, signing_throws h env loginUser w err /\
               outcome (run h (buildToken env loginUser) w) = Thrown err) \/
  (exists token, outcome (run h (buildToken env loginUser) w) = Done token).
Proof.
  unfold signing_throws, buildToken.
  change {| issuer := "bot.root"; expiresIn := tokenExpiry env; algorithm := "HS256" |}
    with (sign_options env).
  cbn. destruct (h GetSecret w) as [[secret|err] w1] eqn:Hs; cbn.
  - destruct (h (JwtSign (VObj [("user", loginUser)]) secret (sign_options env)) w1)
      as [[token|err] w2] eqn:Hsign; cbn.
    + right. exists token. reflexivity.
    + left. exists err. split; [|reflexivity].
      right. exists secret, w1, w2. split; [reflexivity|exact Hsign].
  - left. exists err. split; [|reflexivity]. left. exists w1. reflexivity.
Qed.

(** The outcome of the enabled branch, by the outcome of its two steps. *)
Lemma refreshToken_enabled_outcome (authHeader : value) (w : W) :
  truthy (loginEnabled env) = true ->
  outcome (run h (refreshToken env authHeader) w) =
  match run h (authenticateWithError env authHeader) w with
  | (Done loginUser, w1, _) =>
      match outcome (run h (buildToken env loginUser) w1) with
      | Done token => Done (Success token)
      | Thrown err =>
          if nullish err
          then Thrown (TypeError ("Cannot read property 'message' of " ++ to_string err))
          else Done (Failure (js_or (prop err "message") (VStr TOKEN_INVALID)))
      end
  | (Thrown err, _, _) =>
      if nullish err
      then Thrown (TypeError ("Cannot read property 'message' of " ++ to_string err))
      else Done (Failure (js_or (prop err "message") (VStr TOKEN_INVALID)))
  end.
Proof.
  intros Hon. unfold refreshToken. rewrite Hon. cbn [negb].
  rewrite run_try_catch, run_bind.
  destruct (run h (authenticateWithError env authHeader) w) as [[[loginUser|err] w1] c].
  - rewrite run_bind.
    destruct (run h (buildToken env loginUser) w1) as [[[token|err] w2] c2]; cbn.
    + reflexivity.
    + unfold failure_reason, get_prop. destruct (nullish err); reflexivity.
  - unfold failure_reason, get_prop. destruct (nullish err); reflexivity.
Qed.

End RefreshMore.

(** X14.  With login enabled, a header on which [authenticateWithError]
    throws makes [refreshToken] return [{success: false}] whose reason is
    the message thrown: the scheme error or "The token is invalid or
    expired" for a string header, the message of the split's TypeError for
    a header that is not a string.  It makes the calls of the verification
    and no more, so it fetches no signing secret and signs nothing. *)
Theorem refresh_fails_without_signing (env : Env) (W : Type) (h : handler W) (w : W)
  (authHeader err : value) :
  truthy (loginEnabled env) = true ->
  outcome (run h (authenticateWithError env authHeader) w) = Thrown err ->
  exists msg,
    prop err "message" = VStr msg /\
    ((exists s, authHeader = VStr s /\
                (msg = wrong_scheme (fst (header_parts s)) \/ msg = TOKEN_INVALID)) \/
     ((forall s, authHeader <> VStr s) /\ err = split_type_error authHeader)) /\
    run h (refreshToken env authHeader) w
      = (Done (Failure (VStr msg)),
         final (run h (authenticateWithError env authHeader) w),
         calls (run h (authenticateWithError env authHeader) w)) /\
    Forall not_a_signature (calls (run h (refreshToken env authHeader) w)).
Proof.
  intros Hon Hthrown.
  destruct (authenticateWithError_thrown_message h env _ _ _ Hthrown)
    as (msg & Hmessage & Htruthy & Hobj & Hwhich).
  exists msg. split; [exact Hmessage|]. split.
  { destruct Hwhich as [(s & -> & Herr)|Hmissing]; [left|right; exact Hmissing].
    exists s. split; [reflexivity|].
    destruct Herr as [-> | ->]; cbn in Hmessage; injection Hmessage as <-;
      [left|right]; reflexivity. }
  assert (Hrun : run h (refreshToken env authHeader) w
                 = (Done (Failure (VStr msg)),
                    final (run h (authenticateWithError env authHeader) w),
                    calls (run h (authenticateWithError env authHeader) w))).
  { unfold refreshToken. rewrite Hon. cbn [negb].
    rewrite run_try_catch, run_bind.
    destruct (run h (authenticateWithError env authHeader) w) as [[out w1] c].
    cbn in Hthrown. subst out.
    unfold failure_reason, get_prop. rewrite Hobj. cbn [bind run].
    unfold js_or. rewrite Hmessage, Htruthy, app_nil_r. reflexivity. }
  split; [exact Hrun|]. rewrite Hrun. unfold calls. cbn [snd].
  clear.
  destruct authHeader as [| | | |s|]; try (cbn; constructor).
  rewrite authenticateWithError_string.
  unfold verification_material, verify_user, verified_and_user, get_prop.
  destruct (header_parts s) as [scheme token].
  repeat (cbn;
          match goal with
          | |- context [h ?ev ?w] => destruct (h ev w) as [[?|?] ?]
          | |- context [if ?b then _ else _] => destruct b
          end);
    repeat constructor.
Qed.

Lemma refresh_fails_without_signing_witness :
  (exists msg,
      prop (mkError TOKEN_INVALID) "message" = VStr msg /\
      ((exists s, VStr "Bearer RS256.stale" = VStr s /\
                  (msg = wrong_scheme (fst (header_parts s)) \/ msg = TOKEN_INVALID)) \/
       ((forall s, VStr "Bearer RS256.stale" <> VStr s) /\
        mkError TOKEN_INVALID = split_type_error (VStr "Bearer RS256.stale"))) /\
      run Reference.answer (refreshToken Reference.paired_env (VStr "Bearer RS256.stale"))
          Reference.paired_world
        = (Done (Failure (VStr msg)),
           final (run Reference.answer
                    (authenticateWithError Reference.paired_env (VStr "Bearer RS256.stale"))
                    Reference.paired_world),
           calls (run Reference.answer
                    (authenticateWithError Reference.paired_env (VStr "Bearer RS256.stale"))
                    Reference.paired_world)) /\
      Forall not_a_signature
             (calls (run Reference.answer
                       (refreshToken Reference.paired_env (VStr "Bearer RS256.stale"))
                       Reference.paired_world))) /\
  outcome (run Reference.answer (refreshToken Reference.paired_env VUndefined)
               Reference.paired_world)
    = Done (Failure (VStr "Cannot read property 'split' of undefined")).
Proof.
  split.
  - apply (refresh_fails_without_signing Reference.paired_env _ Reference.answer
             Reference.paired_world (VStr "Bearer RS256.stale") (mkError TOKEN_INVALID));
      reflexivity.
  - destruct (refresh_fails_without_signing Reference.paired_env _ Reference.answer
                Reference.paired_world VUndefined (split_type_error VUndefined)
                eq_refl eq_refl) as (msg & Hmessage & _ & Hrun & _).
    cbn in Hmessage. injection Hmessage as <-. rewrite Hrun. reflexivity.
Defined.

(** X15.  With login enabled, a header whose token passes every check
    (verified, hook truthy, not proof-only, audience of this bot) makes
    [refreshToken] fetch the secret and sign a new HS256 token for the
    same [user] claim, and return it: the old token is replaced, not
    echoed. *)
Theorem refresh_reissues_for_same_principal (env : Env) (W : Type) (h : handler W)
  (w : W) (authHeader : string) (token decoded verified : value) (w3 : W)
  (secret : value) (w4 : W) (fresh : value) (w5 : W) :
  truthy (loginEnabled env) = true ->
  header_parts authHeader = (VStr "Bearer", token) ->
  verification_passes h env token w decoded verified w3 ->
  truthy (prop decoded "identity_proof_only") = false ->
  prop decoded "aud" = VStr (bot_urn (botId env)) ->
  truthy verified = true ->
  h GetSecret w3 = (Done secret, w4) ->
  h (JwtSign (VObj [("user", prop decoded "user")]) secret (sign_options env)) w4
    = (Done fresh, w5) ->
  outcome (run h (refreshToken env (VStr authHeader)) w) = Done (Success fresh) /\
  final (run h (refreshToken env (VStr authHeader)) w) = w5 /\
  exists verification,
    calls (run h (authenticateWithError env (VStr authHeader)) w) = verification /\
    calls (run h (refreshToken env (VStr authHeader)) w)
      = (verification
           ++ [GetSecret;
               JwtSign (VObj [("user", prop decoded "user")]) secret
                       (sign_options env)])%list.
Proof.
  intros Hon Hparts Hpass Hflag Haud Hverified Hsecret Hsign.
  destruct (authenticateWithError_passes h env _ _ _ _ _ _ Hparts Hpass) as (c & Hrun).
  rewrite Hflag, Haud in Hrun. cbn [strict_neq_string] in Hrun.
  rewrite String.eqb_refl in Hrun. cbn [negb] in Hrun.
  unfold js_and in Hrun. rewrite Hverified in Hrun.
  rewrite (refreshToken_signs_returned_value h env _ _ _ _ _ _ _ _ _
             Hon Hrun Hsecret Hsign), Hrun.
  repeat split. exists c. split; reflexivity.
Qed.

Lemma refresh_reissues_for_same_principal_witness :
  outcome (run Reference.answer
             (refreshToken Reference.paired_env (VStr "Bearer RS256.session"))
             Reference.paired_world) = Done (Success (VStr "HS256.jwt5")).
Proof.
  assert (Hpass : verification_passes Reference.answer Reference.paired_env
                    (VStr "RS256.session") Reference.paired_world
                    (VObj (Reference.cloud_claims [])) (VBool true)
                    Reference.paired_world).
  { exists (VStr "cert"), Reference.paired_world, Reference.paired_world.
    repeat split; reflexivity. }
  exact (proj1 (refresh_reissues_for_same_principal
                  Reference.paired_env _ Reference.answer Reference.paired_world
                  "Bearer RS256.session" (VStr "RS256.session") _ _ _
                  (VStr "s3cr3t") Reference.paired_world (VStr "HS256.jwt5") _
                  eq_refl eq_refl Hpass eq_refl eq_refl eq_refl eq_refl eq_refl)).
Defined.

(** X16.  With login enabled, when the token is fine but issuing the
    replacement fails (the secret fetch or [jwt.sign] throws an object),
    [refreshToken] does not throw: it returns [{success: false}] with the
    thrown message, or with "The token is invalid or expired" when the
    message is missing or empty. *)
Theorem refresh_reports_signing_failure (env : Env) (W : Type) (h : handler W)
  (w : W) (authHeader : string) (loginUser : value) (w3 : W) (c : list Event)
  (err : value) :
  truthy (loginEnabled env) = true ->
  run h (authenticateWithError env (VStr authHeader)) w = (Done loginUser, w3, c) ->
  signing_throws h env loginUser w3 err ->
  nullish err = false ->
  outcome (run h (refreshToken env (VStr authHeader)) w)
    = Done (Failure (if truthy (prop err "message") then prop err "message"
                     else VStr TOKEN_INVALID)).
Proof.
  intros Hon Hauth Hsign Hobj.
  rewrite (refreshToken_enabled_outcome h env _ _ Hon), Hauth,
    (run_buildToken_throws h env _ _ _ Hsign), Hobj.
  reflexivity.
Qed.

Lemma refresh_reports_signing_failure_witness :
  outcome (run (Faults.failing Faults.is_secret_fetch (mkError ""))
             (refreshToken Reference.paired_env (VStr "Bearer RS256.session"))
             Reference.paired_world)
    = Done (Failure (if truthy (prop (mkError "") "message")
                     then prop (mkError "") "message"
                     else VStr TOKEN_INVALID)).
Proof.
  apply (refresh_reports_signing_failure Reference.paired_env _
           (Faults.failing Faults.is_secret_fetch (mkError ""))
           Reference.paired_world "Bearer RS256.session" (VStr "alice")
           Reference.paired_world
           [GetCertificate;
            JwtVerify (VStr "RS256.session") (VStr "cert") ["RS256"];
            VerifyUser (VObj (Reference.cloud_claims []))]
           (mkError "")).
  - reflexivity.
  - reflexivity.
  - left. exists Reference.paired_world. reflexivity.
  - reflexivity.
Defined.

(** X17.  Every failure [refreshToken] returns, with login enabled or
    not and whatever the header, carries a truthy (non-empty) reason. *)
Theorem refresh_failure_has_reason (env : Env) (W : Type) (h : handler W) (w : W)
  (authHeader reason : value) :
  outcome (run h (refreshToken env authHeader) w) = Done (Failure reason) ->
  truthy reason = true.
Proof.
  assert (Hor : forall message, truthy (js_or message (VStr TOKEN_INVALID)) = true).
  { intros message. unfold js_or.
    destruct (truthy message) eqn:Hm; [exact Hm|reflexivity]. }
  destruct (truthy (loginEnabled env)) eqn:Hon.
  - rewrite (refreshToken_enabled_outcome h env _ _ Hon).
    destruct (run h (authenticateWithError env authHeader) w) as [[[loginUser|err] w1] c].
    + destruct (outcome (run h (buildToken env loginUser) w1)) as [token|err];
        [discriminate|].
      destruct (nullish err); [discriminate|]. intros [= <-]. apply Hor.
    + destruct (nullish err); [discriminate|]. intros [= <-]. apply Hor.
  - destruct authHeader as [| | | |s|];
      try (unfold refreshToken; rewrite Hon; discriminate).
    rewrite (refreshToken_disabled env _ Hon).
    destruct (strict_neq_string (fst (header_parts s)) "Bearer");
      cbn; [|discriminate].
    intros [= <-]. reflexivity.
Qed.

Lemma refresh_failure_has_reason_witness :
  truthy (VStr TOKEN_INVALID) = true.
Proof.
  apply (refresh_failure_has_reason Reference.paired_env _ Reference.answer
           Reference.paired_world (VStr "Bearer RS256.stale")).
  reflexivity.
Defined.

(** X18.  In an environment whose collaborators throw objects only,
    [refreshToken] throws in one case only: login is disabled and the
    header is not a string, where the split, outside any [try], throws its
    TypeError.  For every string header, and for every header when login
    is enabled, it resolves to [{success: true, token}] or
    [{success: false, reason}]. *)
Theorem refresh_never_throws (env : Env) (W : Type) (h : handler W) (w : W)
  (authHeader : value) :
  throws_objects h ->
  ((truthy (loginEnabled env) = true \/ exists s, authHeader = VStr s) ->
   exists answer, outcome (run h (refreshToken env authHeader) w) = Done answer) /\
  (truthy (loginEnabled env) = false -> (forall s, authHeader <> VStr s) ->
   run h (refreshToken env authHeader) w
     = (Thrown (split_type_error authHeader), w, [])).
Proof.
  intros Hobjects. split.
  - intros Hcase. destruct (truthy (loginEnabled env)) eqn:Hon.
    + rewrite (refreshToken_enabled_outcome h env _ _ Hon).
      destruct (run h (authenticateWithError env authHeader) w)
        as [[[loginUser|err] w1] c] eqn:Hauth.
      * destruct (run_buildToken_cases h env loginUser w1)
          as [(err & Hthrows & ->)|(token & ->)].
        -- assert (Hobj : nullish err = false).
           { destruct Hthrows as [(w2 & Hs)|(secret & w2 & w3 & _ & Hs)];
               exact (Hobjects _ _ _ _ Hs). }
           rewrite Hobj. eexists. reflexivity.
        -- eexists. reflexivity.
      * destruct (authenticateWithError_thrown_message h env authHeader w err)
          as (msg & _ & _ & Hobj & _).
        { rewrite Hauth. reflexivity. }
        rewrite Hobj. eexists. reflexivity.
    + destruct Hcase as [Hfalse|(s & ->)]; [discriminate|].
      rewrite (refreshToken_disabled env _ Hon).
      destruct (strict_neq_string (fst (header_parts s)) "Bearer");
        eexists; reflexivity.
  - intros Hoff Hmissing. unfold refreshToken. rewrite Hoff. cbn [negb].
    destruct authHeader as [| | | |s|]; try reflexivity.
    exfalso. exact (Hmissing s eq_refl).
Qed.

Lemma reference_throws_objects : throws_objects Reference.answer.
Proof.
  intros ev w err w1. destruct ev; cbn; try discriminate.
  - destruct (Reference.attemptsLeft w); discriminate.
  - destruct (_ && _); discriminate.
  - unfold Reference.jwt_sign.
    destruct payload; try (intros [= <- _]; reflexivity).
    destruct secret; try (intros [= <- _]; reflexivity).
    destruct (Reference.seconds_of (expiresIn options));
      [destruct (_ && _)|]; intros [= <- _]; reflexivity.
  - unfold Reference.jwt_verify.
    destruct (Reference.stated_algorithm token); [|intros [= <- _]; reflexivity].
    destruct (negb _); [intros [= <- _]; reflexivity|].
    destruct (Reference.find_token _ _); [|intros [= <- _]; reflexivity].
    destruct (negb _); [intros [= <- _]; reflexivity|].
    destruct (_ <=? _)%Z; [intros [= <- _]; reflexivity|discriminate].
Qed.

Lemma refresh_never_throws_witness :
  (exists answer,
      outcome (run Reference.answer
                 (refreshToken Reference.paired_env (VStr "Bearer HS256.forged"))
                 Reference.paired_world) = Done answer) /\
  (exists answer,
      outcome (run Reference.answer (refreshToken Reference.paired_env VUndefined)
                   Reference.paired_world) = Done answer) /\
  run Reference.answer (refreshToken Reference.open_env VUndefined)
      Reference.local_world
    = (Thrown (split_type_error VUndefined), Reference.local_world, []).
Proof.
  split; [|split].
  - apply (proj1 (refresh_never_throws Reference.paired_env _ Reference.answer
                    Reference.paired_world (VStr "Bearer HS256.forged")
                    reference_throws_objects)).
    left. reflexivity.
  - apply (proj1 (refresh_never_throws Reference.paired_env _ Reference.answer
                    Reference.paired_world VUndefined reference_throws_objects)).
    left. reflexivity.
  - apply (proj2 (refresh_never_throws Reference.open_env _ Reference.answer
                    Reference.local_world VUndefined reference_throws_objects)).
    + reflexivity.
    + discriminate.
Defined.

(** X19.  The guarantee of X18 stops at thrown [undefined] and [null]:
    when the token is fine and the secret fetch or [jwt.sign] throws such
    a value, reading [err.message] in the handler fails and
    [refreshToken] itself throws a TypeError. *)
Theorem refresh_throws_on_nullish_error (env : Env) (W : Type) (h : handler W)
  (w : W) (authHeader : string) (loginUser : value) (w3 : W) (c : list Event)
  (err : value) :
  truthy (loginEnabled env) = true ->
  run h (authenticateWithError env (VStr authHeader)) w = (Done loginUser, w3, c) ->
  signing_throws h env loginUser w3 err ->
  nullish err = true ->
  outcome (run h (refreshToken env (VStr authHeader)) w)
    = Thrown (TypeError ("Cannot read property 'message' of " ++ to_string err)).
Proof.
  intros Hon Hauth Hsign Hnull.
  rewrite (refreshToken_enabled_outcome h env _ _ Hon), Hauth,
    (run_buildToken_throws h env _ _ _ Hsign), Hnull.
  reflexivity.
Qed.

Lemma refresh_throws_on_nullish_error_witness :
  outcome (run (Faults.failing Faults.is_secret_fetch VNull)
             (refreshToken Reference.paired_env (VStr "Bearer RS256.session"))
             Reference.paired_world)
    = Thrown (TypeError ("Cannot read property 'message' of " ++ to_string VNull)).
Proof.
  apply (refresh_throws_on_nullish_error Reference.paired_env _
           (Faults.failing Faults.is_secret_fetch VNull)
           Reference.paired_world "Bearer RS256.session" (VStr "alice")
           Reference.paired_world
           [GetCertificate;
            JwtVerify (VStr "RS256.session") (VStr "cert") ["RS256"];
            VerifyUser (VObj (Reference.cloud_claims []))]
           VNull).
  - reflexivity.
  - reflexivity.
  - left. exists Reference.paired_world. reflexivity.
  - reflexivity.
Defined.

(** ** Issuing *)

Section Issuing.

Context {W : Type} (h : handler W) (env : Env).

Ltac walk :=
  repeat (cbn;
          match goal with
          | |- context [h ?ev ?w] => destruct (h ev w) as [[?|?] ?]
          | |- context [if ?b then _ else _] => destruct b
          end).

Ltac root_signatures :=
  repeat (apply Forall_cons;
          [first [exact I | split; [reflexivity | eexists; reflexivity]]|]);
  apply Forall_nil.

(** X20.  Every token the helper signs, in [login] and in [refreshToken],
    paired or not, is signed with the options HS256, issuer "bot.root" and
    the configured expiry, over a payload that holds the one claim [user]:
    the helper never signs with RS256 and never adds an audience. *)
Theorem every_signature_is_root_hs256 (user password ip authHeader : value)
  (w : W) :
  Forall (signs_as_root env) (calls (run h (login env user password ip) w)) /\
  Forall (signs_as_root env) (calls (run h (refreshToken env authHeader) w)) /\
  algorithm (sign_options env) = "HS256" /\
  issuer (sign_options env) = "bot.root" /\
  expiresIn (sign_options env) = tokenExpiry env.
Proof.
  split; [|split; [|repeat split]].
  - unfold login, buildToken, calls. walk; root_signatures.
  - destruct authHeader as [| | | |s|];
      try (unfold refreshToken, buildToken, failure_reason, get_prop, calls;
           walk; root_signatures).
    unfold refreshToken. rewrite authenticateWithError_string.
    unfold buildToken, failure_reason,
      verification_material, verify_user, verified_and_user, get_prop, calls.
    cbn [split_header bind].
    destruct (header_parts s) as [scheme token].
    walk; root_signatures.
Qed.

End Issuing.

(** ** Authentication info *)

(** X21.  [getAuthenticationInfo] asks the cloud collaborator for the bot
    environment and, only when paired, for the endpoint; it never fetches
    the secret or the certificate.  On an unpaired helper it makes the one
    call, reports the captured settings, and its [cloudEndpoint] is the
    falsy pairing flag itself. *)
Theorem info_of_unpaired_helper (env : Env) (W : Type) (h : handler W) (w : W)
  (botEnv : value) (w1 : W) :
  truthy (isCloudPaired env) = false ->
  h GetBotEnv w = (Done botEnv, w1) ->
  run h (getAuthenticationInfo env) w
    = (Done {| info_isCloudPaired := isCloudPaired env;
               info_botId := botId env;
               info_loginEnabled := loginEnabled env;
               info_useCloud := useCloud env;
               info_botEnv := botEnv;
               info_cloudEndpoint := isCloudPaired env |},
       w1, [GetBotEnv]) /\
  forall (env' : Env) (w' : W),
    Forall info_call (calls (run h (getAuthenticationInfo env') w')).
Proof.
  intros Hunpaired Hbot. split.
  - unfold getAuthenticationInfo. cbn. rewrite Hbot. cbn.
    rewrite Hunpaired. reflexivity.
  - intros env' w'. unfold getAuthenticationInfo, calls. cbn.
    destruct (h GetBotEnv w') as [[v|err] w2]; cbn; [|repeat constructor].
    destruct (truthy (isCloudPaired env')); cbn; [|repeat constructor].
    destruct (h GetCloudEndpoint w2) as [[ep|err] w3]; cbn; repeat constructor.
Qed.

Lemma info_of_unpaired_helper_witness :
  run Reference.answer (getAuthenticationInfo Reference.local_env)
      Reference.local_world
    = (Done {| info_isCloudPaired := VBool false;
               info_botId := VUndefined;
               info_loginEnabled := VBool true;
               info_useCloud := VBool false;
               info_botEnv := VStr "dev";
               info_cloudEndpoint := VBool false |},
       Reference.local_world, [GetBotEnv]).
Proof.
  exact (proj1 (info_of_unpaired_helper Reference.local_env _ Reference.answer
                  Reference.local_world (VStr "dev") Reference.local_world
                  eq_refl eq_refl)).
Defined.

(** X22.  On a paired helper [getAuthenticationInfo] makes two calls, the
    bot environment and then the endpoint, and reports the endpoint the
    collaborator answered; if either call throws, so does
    [getAuthenticationInfo]. *)
Theorem info_of_paired_helper (env : Env) (W : Type) (h : handler W) (w : W)
  (botEnv : value) (w1 : W) :
  truthy (isCloudPaired env) = true ->
  h GetBotEnv w = (Done botEnv, w1) ->
  calls (run h (getAuthenticationInfo env) w) = [GetBotEnv; GetCloudEndpoint] /\
  outcome (run h (getAuthenticationInfo env) w) =
  match fst (h GetCloudEndpoint w1) with
  | Done endpoint =>
      Done {| info_isCloudPaired := isCloudPaired env;
              info_botId := botId env;
              info_loginEnabled := loginEnabled env;
              info_useCloud := useCloud env;
              info_botEnv := botEnv;
              info_cloudEndpoint := endpoint |}
  | Thrown err => Thrown err
  end.
Proof.
  intros Hpaired Hbot. unfold getAuthenticationInfo. cbn. rewrite Hbot. cbn.
  rewrite Hpaired. cbn.
  destruct (h GetCloudEndpoint w1) as [[endpoint|err] w2]; split; reflexivity.
Qed.

Lemma info_of_paired_helper_witness :
  calls (run Reference.answer (getAuthenticationInfo Reference.paired_env)
             Reference.paired_world) = [GetBotEnv; GetCloudEndpoint] /\
  outcome (run Reference.answer (getAuthenticationInfo Reference.paired_env)
               Reference.paired_world) =
  match fst (Reference.answer GetCloudEndpoint Reference.paired_world) with
  | Done endpoint =>
      Done {| info_isCloudPaired := isCloudPaired Reference.paired_env;
              info_botId := botId Reference.paired_env;
              info_loginEnabled := loginEnabled Reference.paired_env;
              info_useCloud := useCloud Reference.paired_env;
              info_botEnv := VStr "dev";
              info_cloudEndpoint := endpoint |}
  | Thrown err => Thrown err
  end.
Proof.
  apply (info_of_paired_helper Reference.paired_env _ Reference.answer
           Reference.paired_world (VStr "dev") Reference.paired_world);
    reflexivity.
Defined.

(** ** An unpaired helper *)

(** X23.  A helper constructed unpaired has no [botId], so the audience it
    demands is the literal "urn:bot/undefined": [authenticate] returns a
    principal only for a token that [jwt.verify] accepted with the secret
    and HS256 and whose [aud] claim is exactly that string. *)
Theorem unpaired_helper_demands_undefined_audience (W : Type) (h : handler W)
  (securityConfig : SecurityConfig) (verifyUserDefined : bool) (w0 : W)
  (env : Env) (w : W) (authHeader : string) (principal : value) :
  outcome (run h (construct securityConfig verifyUserDefined) w0) = Done env ->
  truthy (isCloudPaired env) = false ->
  outcome (run h (authenticate env (VStr authHeader)) w) = Done principal ->
  truthy principal = true ->
  exists token secret w1 decoded w2,
    header_parts authHeader = (VStr "Bearer", token) /\
    h GetSecret w = (Done secret, w1) /\
    h (JwtVerify token secret ["HS256"]) w1 = (Done decoded, w2) /\
    prop decoded "aud" = VStr "urn:bot/undefined".
Proof.
  intros Hbuilt Hunpaired Hout Htruthy.
  pose proof (construct_unpaired_has_no_bot h _ _ _ _ Hbuilt Hunpaired) as Hbot.
  destruct (authenticate_accepts_only_bot_audience h env _ _ _ Hout Htruthy)
    as (token & secret & w1 & decoded & w2 & Hparts & Hm & Hv & _ & Haud).
  unfold material_event in Hm. unfold mode_algorithm in Hv.
  rewrite Hunpaired in Hm, Hv. rewrite Hbot in Haud.
  exists token, secret, w1, decoded, w2. repeat split; assumption.
Qed.

Lemma unpaired_helper_demands_undefined_audience_witness :
  exists token secret w1 decoded w2,
    header_parts "Bearer HS256.stray" = (VStr "Bearer", token) /\
    Reference.answer GetSecret Faults.stray_audience_world = (Done secret, w1) /\
    Reference.answer (JwtVerify token secret ["HS256"]) w1 = (Done decoded, w2) /\
    prop decoded "aud" = VStr "urn:bot/undefined".
Proof.
  apply (unpaired_helper_demands_undefined_audience _ Reference.answer
           Reference.local_config false Reference.local_world
           Reference.local_env Faults.stray_audience_world
           "Bearer HS256.stray" (VStr "bob"));
    reflexivity.
Defined.
